(** * diet-app: the health analysis and diet-plan pipeline of [app.py]

    A shallow embedding of [calculate_bmi], [analyze_health],
    [generate_diet_plan] and of the button handler of [main].

    Conventions of the embedding.
    - Python numbers (the [int]s the form supplies and the [float]s that
      true division produces) are exact rationals [Q].  Binary64 rounding
      error is therefore idealised away; [round(x, 1)] is decimal rounding
      of the exact value, ties to even, which is what CPython computes on
      the exact value of a double.
      Where a statement turns on a value that sits on a rounding
      boundary, module [Binary64] gives the same computation in the
      arithmetic of the machine.
    - A Python [str] is a [string] whose characters are read as code points
      below 256.
    - Exceptions are the [Raise] outcomes of a small error-and-log monad;
      the widgets [st.error], [st.success], ... append to an event log.
      Calls to [logger.error] are left out of the log. *)

From Stdlib Require Import ZArith QArith Qround Lqa Lia.
From Stdlib Require Import Bool List Ascii String DecimalString.
Import ListNotations.

Open Scope string_scope.
Open Scope list_scope.

(** ** Python string primitives *)

Module PyStr.

Definition code (c : ascii) : N := N_of_ascii c.

(** [str.isspace] on code points below 256: the set [str.strip] removes. *)
Definition is_space (c : ascii) : bool :=
  let n := code c in
  ((9 <=? n) && (n <=? 13) || (28 <=? n) && (n <=? 32)
   || (n =? 133) || (n =? 160))%N.

(** The whitespace [int(str)] skips: the C-locale spaces, and the two
    non-ASCII spaces below 256, which CPython first rewrites to [' ']. *)
Definition is_int_space (c : ascii) : bool :=
  let n := code c in
  ((9 <=? n) && (n <=? 13) || (n =? 32) || (n =? 133) || (n =? 160))%N.

Section Strip.
Variable sp : ascii -> bool.

Fixpoint lstrip_with (s : string) : string :=
  match s with
  | EmptyString => EmptyString
  | String c s' => if sp c then lstrip_with s' else s
  end.

Fixpoint rstrip_with (s : string) : string :=
  match s with
  | EmptyString => EmptyString
  | String c s' =>
      match rstrip_with s' with
      | EmptyString => if sp c then EmptyString else String c EmptyString
      | r => String c r
      end
  end.

Definition strip_with (s : string) : string :=
  rstrip_with (lstrip_with s).
End Strip.

(** [s.strip()] *)
Definition strip : string -> string := strip_with is_space.

(** [s.startswith(p)] *)
Definition startswith (s p : string) : bool := String.prefix p s.

(** [sep.join(l)] *)
Definition join (sep : string) (l : list string) : string :=
  String.concat sep l.

(** [s.split(sep)] for a one-character separator: never an empty list. *)
Fixpoint split (sep : ascii) (s : string) : list string :=
  match s with
  | EmptyString => [EmptyString]
  | String c s' =>
      if Ascii.eqb c sep then EmptyString :: split sep s'
      else match split sep s' with
           | [] => [String c EmptyString]
           | h :: t => String c h :: t
           end
  end.

Definition is_digit (c : ascii) : bool :=
  ((48 <=? code c) && (code c <=? 57))%N.

Definition digit_value (c : ascii) : Z := Z.of_N (code c - 48).

(** CPython's default limit on the number of digits [int(str)] accepts. *)
Definition int_max_str_digits : N := 4300.

(** The digit run of [int(str)]: digits with single underscores between
    them.  [prev_us] is true at the start and after an underscore, where
    neither an underscore nor the end may follow. *)
Fixpoint scan_digits (prev_us : bool) (acc : Z) (ndigits : N) (s : string)
  : option (Z * N) :=
  match s with
  | EmptyString => if prev_us then None else Some (acc, ndigits)
  | String c s' =>
      if is_digit c then
        scan_digits false (acc * 10 + digit_value c) (N.succ ndigits) s'
      else if Ascii.eqb c "_" then
        if prev_us then None else scan_digits true acc ndigits s'
      else None
  end.

Definition unsigned_int (s : string) : option Z :=
  match scan_digits true 0%Z 0%N s with
  | Some (v, n) => if (int_max_str_digits <? n)%N then None else Some v
  | None => None
  end.

(** [int(s)]: [None] stands for [ValueError]. *)
Definition int (s : string) : option Z :=
  match strip_with is_int_space s with
  | String "+" body => unsigned_int body
  | String "-" body => option_map Z.opp (unsigned_int body)
  | body => unsigned_int body
  end.

(** [str(n)] for an [int]. *)
Definition str_of_int (n : Z) : string :=
  NilZero.string_of_int (Z.to_int n).

(** The newline character as a one-character string. *)
Definition nl : string := String (ascii_of_nat 10) EmptyString.

End PyStr.

(** ** Python numbers *)

Module PyNum.

Open Scope Q_scope.

(** Nearest integer, ties to the even one. *)
Definition round_half_even (x : Q) : Z :=
  let f := Qfloor x in
  match ((x - inject_Z f) ?= (1 # 2))%Q with
  | Lt => f
  | Gt => (f + 1)%Z
  | Eq => if Z.even f then f else (f + 1)%Z
  end.

(** [round(x, 1)] *)
Definition round1 (x : Q) : Q := round_half_even (x * 10) # 10.

Definition Qltb (x y : Q) : bool := negb (Qle_bool y x).

(** [repr] of a float holding a one-decimal value, in positional
    notation (CPython prints floats below 1e16 this way). *)
Definition repr1 (x : Q) : string :=
  let n := round_half_even (x * 10) in
  let a := Z.abs n in
  ((if (n <? 0)%Z then "-" else "")
     ++ PyStr.str_of_int (a / 10) ++ "." ++ PyStr.str_of_int (a mod 10))%string.

End PyNum.

(** ** Exceptions, events and the monad of the handlers *)

(** [ZeroDivisionError] is the one exception the code under study raises
    itself; [RetrievalError] stands for whatever the knowledge store
    raises. *)
Inductive exn : Type :=
| ZeroDivisionError
| RetrievalError (msg : string).

Inductive result (A : Type) : Type :=
| Ok (a : A)
| Raise (e : exn).
Arguments Ok {A} a.
Arguments Raise {A} e.

(** What a run shows on the page and asks of the knowledge store. *)
Inductive event : Type :=
| st_error (msg : string)
| st_success
| st_markdown (body : string)
| st_download_button (data : string)
| retrieve_call (similarity_top_k : nat) (query : string).

Definition M (A : Type) : Type := list event -> result A * list event.

Definition ret {A} (a : A) : M A := fun log => (Ok a, log).

Definition bind {A B} (m : M A) (k : A -> M B) : M B :=
  fun log =>
    match m log with
    | (Ok a, log') => k a log'
    | (Raise e, log') => (Raise e, log')
    end.

Definition emit (ev : event) : M unit := fun log => (Ok tt, log ++ [ev]).

Definition lift {A} (r : result A) : M A := fun log => (r, log).

(** [try: m  except Exception: h] *)
Definition try_except {A} (m : M A) (h : exn -> M A) : M A :=
  fun log =>
    match m log with
    | (Ok a, log') => (Ok a, log')
    | (Raise e, log') => h e log'
    end.

Definition run {A} (m : M A) : result A * list event := m [].

Declare Scope py_scope.
Delimit Scope py_scope with py.
Notation "x <- m ;; k" := (bind m (fun x => k))
  (at level 61, m at next level, right associativity) : py_scope.
Notation "m ;; k" := (bind m (fun _ => k))
  (at level 61, right associativity) : py_scope.
Open Scope py_scope.

(** ** Health calculations *)

(** The dictionary [results] of [analyze_health]. *)
Record health_data : Type := {
  bmi : Q;
  conditions : list string;
  age : Z
}.

(** [weight / ((height/100) ** 2)]; division by a zero float raises. *)
Definition calculate_bmi (weight height : Q) : result Q :=
  let d := ((height / 100) ^ 2)%Q in
  if Qeq_bool d 0 then Raise ZeroDivisionError else Ok (weight / d)%Q.

(** The [if]/[elif] chain on [results["bmi"]]. *)
Definition weight_category (b : Q) : string :=
  if PyNum.Qltb b 18.5 then "Underweight"
  else if Qle_bool 18.5 b && PyNum.Qltb b 25 then "Normal weight"
  else if Qle_bool 25 b && PyNum.Qltb b 30 then "Overweight"
  else "Obese".

(** [systolic, diastolic = map(int, bp.split('/'))]; [None] is any of the
    exceptions the bare [except] catches. *)
Definition parse_bp (bp : string) : option (Z * Z) :=
  match map PyStr.int (PyStr.split "/" bp) with
  | [Some systolic; Some diastolic] => Some (systolic, diastolic)
  | _ => None
  end.

Definition bp_format_message : string :=
  "Invalid blood pressure format. Use systolic/diastolic (e.g., 120/80)".

Definition analyze_health (age : Z) (weight height : Q) (bp : string)
    (sugar cholesterol : Q) : M health_data :=
  raw <- lift (calculate_bmi weight height) ;;
  let bmi := PyNum.round1 raw in
  let conds := [] ++ [weight_category bmi] in
  conds <- match parse_bp bp with
           | Some (systolic, diastolic) =>
               if ((140 <=? systolic) || (90 <=? diastolic))%Z
               then ret (conds ++ ["Hypertension"])
               else ret conds
           | None => emit (st_error bp_format_message) ;; ret conds
           end ;;
  let conds := if Qle_bool 126 sugar
               then conds ++ ["High Blood Sugar"] else conds in
  let conds := if Qle_bool 200 cholesterol
               then conds ++ ["High Cholesterol"] else conds in
  ret {| bmi := bmi; conditions := conds; age := age |}.

(** ** The analysis in binary64 *)

(** The arithmetic of [calculate_bmi] and of [round] as the machine does
    it, for the whole numbers the form supplies.  A double is the rational
    it holds.  Integers of magnitude below 2^53 are doubles themselves and
    keep every intermediate result of the analysis within the range of
    the doubles, so overflow is left out. *)
Module Binary64.

(** [floor (log2 |x|)] for a non-zero [x]. *)
Definition ilog2 (x : Q) : Z :=
  let e := (Z.log2 (Z.abs (Qnum x)) - Z.log2 (Zpos (Qden x)))%Z in
  if Qle_bool (2 ^ e) (Z.abs (Qnum x) # Qden x) then e else (e - 1)%Z.

(** The double nearest to [x], ties to the even significand: around [x]
    the doubles are the multiples of 2^(ilog2 x - 52), and of 2^-1074
    below the normal range. *)
Definition fl (x : Q) : Q :=
  if Qeq_bool x 0 then 0%Q
  else
    let ulp := (2 ^ Z.max (ilog2 x - 52) (-1074))%Q in
    Qred (inject_Z (PyNum.round_half_even (x / ulp)) * ulp).

(** [weight / ((height/100) ** 2)] on two ints: the quotient of two ints
    is rounded once, the square is rounded once, and the int [weight] is
    converted before the division. *)
Definition calculate_bmi (weight height : Z) : result Q :=
  let d := fl (fl (inject_Z height / 100) ^ 2) in
  if Qeq_bool d 0 then Raise ZeroDivisionError
  else Ok (fl (fl (inject_Z weight) / d)).

(** [round(x, 1)]: the exact value of the double is rounded to one
    decimal, ties to even, and the double nearest to that decimal is
    returned. *)
Definition round1 (x : Q) : Q := fl (PyNum.round1 x).

Definition analyze_health (age weight height : Z) (bp : string)
    (sugar cholesterol : Z) : M health_data :=
  raw <- lift (calculate_bmi weight height) ;;
  let bmi := round1 raw in
  let conds := [] ++ [weight_category bmi] in
  conds <- match parse_bp bp with
           | Some (systolic, diastolic) =>
               if ((140 <=? systolic) || (90 <=? diastolic))%Z
               then ret (conds ++ ["Hypertension"])
               else ret conds
           | None => emit (st_error bp_format_message) ;; ret conds
           end ;;
  let conds := if (126 <=? sugar)%Z
               then conds ++ ["High Blood Sugar"] else conds in
  let conds := if (200 <=? cholesterol)%Z
               then conds ++ ["High Cholesterol"] else conds in
  ret {| bmi := bmi; conditions := conds; age := age |}.

End Binary64.

(** ** Health knowledge base *)

(** The four documents [initialize_health_index] builds the index from.
    Continuation lines of the triple-quoted literals keep the sixteen
    spaces they are indented by in the source. *)
Definition indent : string := "                ".

Definition document (first : string) (others : list string) : string :=
  PyStr.join PyStr.nl (first :: map (String.append indent) others).

Definition documents : list string :=
  [ document "Condition: Hypertension | High Blood Pressure"
      [ "Diagnostic Criteria: BP > 140/90 mmHg";
        "Recommendations:";
        "- Sodium restriction <1500mg/day";
        "- Potassium-rich foods: bananas, spinach, sweet potatoes";
        "- Whole grains and lean proteins";
        "- Limit alcohol/caffeine" ];
    document "Condition: Diabetes | High Blood Sugar"
      [ "Diagnostic Criteria: Fasting glucose > 126 mg/dL";
        "Recommendations:";
        "- Low glycemic index foods";
        "- Balanced carbohydrate distribution";
        "- High fiber intake";
        "- Healthy fats: avocado, nuts" ];
    document "Condition: Hyperlipidemia | High Cholesterol"
      [ "Diagnostic Criteria: LDL > 130 mg/dL";
        "Recommendations:";
        "- Reduce saturated fats";
        "- Omega-3 sources: fish, flaxseeds";
        "- Soluble fiber: oats, beans";
        "- Plant sterols/stanols" ];
    document "Condition: Weight Management"
      [ "Diagnostic Criteria: BMI > 25";
        "Recommendations:";
        "- Calorie deficit: 500-750 kcal/day";
        "- High protein intake";
        "- Portion control";
        "- Regular exercise" ] ].

(** ** Diet generation *)

Definition base_recommendations : list string :=
  [ "Balanced nutrition with variety of foods";
    "Stay hydrated (8 glasses of water daily)";
    "Regular meal timings" ].

(** The [for line in context.split('\n')] loop; [acc] is
    [context_recommendations]. *)
Fixpoint scan_context (lines : list string) (acc : list string)
  : list string :=
  match lines with
  | [] => acc
  | line :: rest =>
      if PyStr.startswith (PyStr.strip line) "- "
      then scan_context rest (acc ++ [PyStr.strip line])
      else scan_context rest acc
  end.

(** The value of [recommendations] when the template is filled in. *)
Definition recommendations_for (context : string) : list string :=
  let recommendations := base_recommendations in
  match context with
  | EmptyString => recommendations
  | _ =>
      let context_recommendations :=
        scan_context (PyStr.split (ascii_of_nat 10) context) [] in
      match context_recommendations with
      | [] => recommendations
      | _ => context_recommendations
      end
  end.

Definition meal_plan : list (string * string) :=
  [ ("Breakfast", "Whole grain cereal with fruits and nuts");
    ("Morning Snack", "Greek yogurt or fresh fruit");
    ("Lunch", "Grilled protein with vegetables and quinoa");
    ("Afternoon Snack", "Vegetable sticks with hummus");
    ("Dinner", "High-fiber meal with lean protein and salad") ].

(** [f'- {rec}'] *)
Definition bullet (rec : string) : string := ("- " ++ rec)%string.

(** [f'**{meal}:** {details}'] *)
Definition meal_line (entry : string * string) : string :=
  ("**" ++ fst entry ++ ":** " ++ snd entry)%string.

(** The template up to and including the line that opens the
    recommendations; [first] is [health_data['conditions'][0]]. *)
Definition plan_head (health_data : health_data) (first : string) : string :=
  (PyStr.nl
   ++ "## Personalized Diet Plan for " ++ PyStr.str_of_int (age health_data)
   ++ " Year Old" ++ PyStr.nl
   ++ PyStr.nl
   ++ "### Health Summary:" ++ PyStr.nl
   ++ "- **BMI:** " ++ PyNum.repr1 (bmi health_data)
   ++ " (" ++ first ++ ")" ++ PyStr.nl
   ++ "- **Identified Conditions:** "
   ++ PyStr.join ", " (conditions health_data) ++ PyStr.nl
   ++ PyStr.nl
   ++ "### Dietary Recommendations:" ++ PyStr.nl)%string.

(** The template after the recommendation bullets. *)
Definition plan_tail : string :=
  (PyStr.nl
   ++ PyStr.nl
   ++ "### Sample Daily Meal Plan:" ++ PyStr.nl
   ++ PyStr.join PyStr.nl (map meal_line meal_plan) ++ PyStr.nl
   ++ PyStr.nl
   ++ "### Lifestyle Advice:" ++ PyStr.nl
   ++ "- Engage in 30 minutes of moderate exercise daily" ++ PyStr.nl
   ++ "- Practice stress-reduction techniques" ++ PyStr.nl
   ++ "- Get 7-8 hours of quality sleep" ++ PyStr.nl
   ++ "- Regular health checkups" ++ PyStr.nl
   ++ PyStr.nl
   ++ "*Based on analysis of your health metrics and medical guidelines*"
   ++ PyStr.nl)%string.

(** [None] is the [return None] of the outer [except]; the only exception
    the body can raise is the index error of [conditions[0]] on an empty
    list. *)
Definition generate_diet_plan (health_data : health_data) (context : string)
  : option string :=
  let recommendations := recommendations_for context in
  match conditions health_data with
  | [] => None
  | first :: _ =>
      Some (plan_head health_data first
            ++ PyStr.join PyStr.nl (map bullet recommendations)
            ++ plan_tail)%string
  end.

(** ** Main interface *)


Section Main.

(** The index as the handler uses it: [as_retriever(similarity_top_k=k)]
    followed by [retrieve(query)], giving the texts of the nodes found or
    raising.  [None] is the index that failed to load. *)
Variable health_index : option (nat -> string -> result (list string)).

Definition retrieve (index : nat -> string -> result (list string))
    (similarity_top_k : nat) (query : string) : M (list string) :=
  emit (retrieve_call similarity_top_k query) ;;
  lift (index similarity_top_k query).

(** The body of the branch taken when the button is pressed.  The test
    [if diet_plan:] separates [None] from a text: a rendered plan is never
    the empty string.  The file name of the download button carries the
    current time and is not part of the event. *)
Definition on_generate (age : Z) (weight height : Q) (bp : string)
    (sugar cholesterol : Q) : M unit :=
  match health_index with
  | None =>
      emit (st_error
              "Health knowledge base not loaded. Please restart the app.")
  | Some index =>
      try_except
        (health_data <-
           analyze_health age weight height bp sugar cholesterol ;;
         let query := PyStr.join " " (conditions health_data) in
         retrieved_nodes <- retrieve index 2 query ;;
         let context := PyStr.join PyStr.nl retrieved_nodes in
         match generate_diet_plan health_data context with
         | Some diet_plan =>
             emit st_success ;;
             emit (st_markdown diet_plan) ;;
             emit (st_download_button diet_plan)
         | None =>
             emit (st_error "Failed to generate plan. Please try again.")
         end)
        (fun _ =>
           emit (st_error
             "Failed to generate plan. Please check your inputs and try again."))
  end.

End Main.

(** A store that answers with its first [k] documents, whatever the query. *)
Definition first_k_index (k : nat) (_ : string) : result (list string) :=
  Ok (firstn k documents).

(** The text of the closing [st.markdown] of [main]: a triple-quoted
    literal whose lines keep their four spaces of indentation. *)
Definition disclaimer : string :=
  (PyStr.nl
   ++ "    ---" ++ PyStr.nl
   ++ "    **Disclaimer:** This AI system provides general health information and should not be used as a substitute for professional medical advice. Always consult a qualified healthcare provider before making any changes to your diet or lifestyle."
   ++ PyStr.nl
   ++ "    ")%string.

(** What one run of [main] puts on the page, from top to bottom.  The
    title holds a character outside the code points of [string] and is
    recorded without its text; the form is the expander with its six
    input widgets, whose values are the parameters of [main]. *)
Inductive page_item : Type :=
| st_title
| st_form
| st_button
| shown (ev : event).

Section Page.
Variable health_index : option (nat -> string -> result (list string)).

(** One run of the script body; [button] is what [st.button] returns.
    The [return] of the branch for a missing index ends the run before
    the disclaimer. *)
Definition main (button : bool) (age : Z) (weight height : Q) (bp : string)
    (sugar cholesterol : Q) : result unit * list page_item :=
  let top := [st_title; st_form; st_button] in
  if button then
    match health_index with
    | None =>
        (Ok tt,
         top ++ map shown
                  (snd (run (on_generate None age weight height bp
                               sugar cholesterol))))
    | Some index =>
        match run (on_generate (Some index) age weight height bp
                     sugar cholesterol) with
        | (Ok _, log) =>
            (Ok tt, top ++ map shown log ++ [shown (st_markdown disclaimer)])
        | (Raise e, log) => (Raise e, top ++ map shown log)
        end
    end
  else (Ok tt, top ++ [shown (st_markdown disclaimer)]).

End Page.

(** ** Vocabulary of the properties *)

Definition weight_labels : list string :=
  [ "Underweight"; "Normal weight"; "Overweight"; "Obese" ].

Definition threshold_labels : list string :=
  [ "Hypertension"; "High Blood Sugar"; "High Cholesterol" ].

Definition is_weight_label (label : string) : bool :=
  existsb (String.eqb label) weight_labels.

(** A line of the context that the scan keeps. *)
Definition qualifies (line : string) : bool :=
  PyStr.startswith (PyStr.strip line) "- ".

(** The requests for documents that a log records, in order. *)
Fixpoint retrieval_requests (log : list event) : list (nat * string) :=
  match log with
  | [] => []
  | retrieve_call k q :: rest => (k, q) :: retrieval_requests rest
  | _ :: rest => retrieval_requests rest
  end.

(** The labels the three threshold checks add, and what the blood-pressure
    check shows on the page. *)
Definition pressure_part (bp : string) : list string :=
  match parse_bp bp with
  | Some (systolic, diastolic) =>
      if ((140 <=? systolic) || (90 <=? diastolic))%Z
      then ["Hypertension"] else []
  | None => []
  end.

Definition pressure_log (bp : string) : list event :=
  match parse_bp bp with
  | Some _ => []
  | None => [st_error bp_format_message]
  end.

Definition sugar_part (sugar : Q) : list string :=
  if Qle_bool 126 sugar then ["High Blood Sugar"] else [].

Definition cholesterol_part (cholesterol : Q) : list string :=
  if Qle_bool 200 cholesterol then ["High Cholesterol"] else [].

(** What the handler shows after the knowledge store has answered. *)
Definition outcome_events (data : health_data)
    (answer : result (list string)) : list event :=
  match answer with
  | Ok retrieved_nodes =>
      match generate_diet_plan data (PyStr.join PyStr.nl retrieved_nodes) with
      | Some diet_plan =>
          [st_success; st_markdown diet_plan; st_download_button diet_plan]
      | None => [st_error "Failed to generate plan. Please try again."]
      end
  | Raise _ =>
      [st_error
         "Failed to generate plan. Please check your inputs and try again."]
  end.

(** The qualifying lines of a context, trimmed, in source order: the
    list the specification describes. *)
Definition extracted_lines (context : string) : list string :=
  map PyStr.strip (filter qualifies (PyStr.split (ascii_of_nat 10) context)).

(** The place of a weight label on the scale from Underweight to Obese. *)
Definition label_rank (label : string) : nat :=
  if String.eqb label "Underweight" then 0
  else if String.eqb label "Normal weight" then 1
  else if String.eqb label "Overweight" then 2
  else 3.

(** The number of occurrences of a character in a text. *)
Fixpoint count_char (c : ascii) (s : string) : nat :=
  match s with
  | EmptyString => 0
  | String x s' => (if Ascii.eqb x c then 1 else 0) + count_char c s'
  end.

(** Every character of the text passes the test. *)
Fixpoint all_chars (p : ascii -> bool) (s : string) : bool :=
  match s with
  | EmptyString => true
  | String c s' => p c && all_chars p s'
  end.

(** ** Rounding *)

Section Rounding.
Open Scope Q_scope.
Import PyNum.

Lemma Qltb_iff (x y : Q) : Qltb x y = true <-> x < y.
Proof.
  unfold Qltb. rewrite negb_true_iff. split.
  - intro H. apply Qnot_le_lt. intro Hle.
    apply Qle_bool_iff in Hle. congruence.
  - intro H. destruct (Qle_bool y x) eqn:E; [|reflexivity].
    apply Qle_bool_iff in E. lra.
Qed.

Lemma Qle_bool_false (x y : Q) : Qle_bool x y = false <-> y < x.
Proof.
  split.
  - intro H. apply Qnot_le_lt. intro Hle.
    apply Qle_bool_iff in Hle. congruence.
  - intro H. destruct (Qle_bool x y) eqn:E; [|reflexivity].
    apply Qle_bool_iff in E. lra.
Qed.

Lemma Qltb_false (x y : Q) : Qltb x y = false <-> y <= x.
Proof.
  unfold Qltb. rewrite negb_false_iff. apply Qle_bool_iff.
Qed.

Lemma inject_Z_succ (n : Z) : inject_Z (n + 1) == inject_Z n + 1.
Proof. rewrite inject_Z_plus. reflexivity. Qed.

Lemma inject_Z_pred (n : Z) : inject_Z (n - 1) == inject_Z n - 1.
Proof.
  unfold Z.sub. rewrite inject_Z_plus, inject_Z_opp. reflexivity.
Qed.

Lemma Qfloor_unique (x : Q) (n : Z) :
  inject_Z n <= x -> x < inject_Z (n + 1) -> Qfloor x = n.
Proof.
  intros Hlo Hhi.
  pose proof (Qfloor_le x) as Hf. pose proof (Qlt_floor x) as Hg.
  assert (inject_Z n < inject_Z (Qfloor x + 1)) as H1 by lra.
  assert (inject_Z (Qfloor x) < inject_Z (n + 1)) as H2 by lra.
  rewrite <- Zlt_Qlt in H1, H2. lia.
Qed.

(** The result of rounding is within a half of the argument. *)
Lemma round_half_even_near (x : Q) :
  inject_Z (round_half_even x) - (1 # 2) <= x
  /\ x <= inject_Z (round_half_even x) + (1 # 2).
Proof.
  unfold round_half_even.
  pose proof (Qfloor_le x) as Hf. pose proof (Qlt_floor x) as Hg.
  rewrite inject_Z_succ in Hg.
  destruct (Qcompare_spec (x - inject_Z (Qfloor x)) (1 # 2)) as [E|E|E].
  - destruct (Z.even (Qfloor x)).
    + lra.
    + rewrite inject_Z_succ. lra.
  - lra.
  - rewrite inject_Z_succ. lra.
Qed.

(** Strictly inside the half-open unit around [n], the result is [n]. *)
Lemma round_half_even_inside (x : Q) (n : Z) :
  inject_Z n - (1 # 2) < x -> x < inject_Z n + (1 # 2) ->
  round_half_even x = n.
Proof.
  intros Hlo Hhi. destruct (round_half_even_near x) as [H1 H2].
  assert (inject_Z (round_half_even x) < inject_Z (n + 1)) as A.
  { rewrite inject_Z_succ. lra. }
  assert (inject_Z n < inject_Z (round_half_even x + 1)) as B.
  { rewrite inject_Z_succ. lra. }
  rewrite <- Zlt_Qlt in A, B. lia.
Qed.


Lemma round_half_even_nonneg (x : Q) :
  0 <= x -> (0 <= round_half_even x)%Z.
Proof.
  intros Hx.
  destruct (Qlt_le_dec x (1 # 2)) as [H|H].
  - rewrite (round_half_even_inside x 0); [lia | change (inject_Z 0) with 0; lra ..].
  - destruct (round_half_even_near x) as [_ H2].
    assert (inject_Z (-1) < inject_Z (round_half_even x)) as A.
    { change (inject_Z (-1)) with (-1). lra. }
    rewrite <- Zlt_Qlt in A. lia.
Qed.

(** Strictly within half a tenth of [n / 10], [round1] gives it. *)
Lemma round1_bracket_open (raw : Q) (n : Z) :
  inject_Z n - (1 # 2) < raw * 10 -> raw * 10 < inject_Z n + (1 # 2) ->
  round1 raw = n # 10.
Proof.
  intros Hlo Hhi. unfold round1. f_equal.
  apply round_half_even_inside; lra.
Qed.
End Rounding.

(** ** The BMI computation *)

Section Bmi.
Open Scope Q_scope.

Lemma square_nonzero (x : Q) : ~ x == 0 -> ~ x ^ 2 == 0.
Proof.
  intros Hx H. apply Hx. simpl in H.
  destruct (Qmult_integral _ _ H); assumption.
Qed.

Lemma calculate_bmi_zero_height (weight height : Q) :
  height == 0 -> calculate_bmi weight height = Raise ZeroDivisionError.
Proof.
  intro H. unfold calculate_bmi.
  assert (Qeq_bool ((height / 100) ^ 2) 0 = true) as E.
  { apply Qeq_bool_iff. rewrite H. reflexivity. }
  rewrite E. reflexivity.
Qed.

Lemma calculate_bmi_nonzero_height (weight height : Q) :
  ~ height == 0 ->
  calculate_bmi weight height = Ok (weight / (height / 100) ^ 2).
Proof.
  intro H. unfold calculate_bmi.
  destruct (Qeq_bool ((height / 100) ^ 2) 0) eqn:E; [|reflexivity].
  apply Qeq_bool_iff in E. exfalso. revert E. apply square_nonzero.
  intro E. apply H. 
  assert (height == height / 100 * 100) as R by (field).
  rewrite R, E. reflexivity.
Qed.

Lemma square_pos (x : Q) : ~ x == 0 -> 0 < x ^ 2.
Proof.
  intro Hx. simpl.
  destruct (Qlt_le_dec 0 x) as [H|H].
  - apply Qmult_lt_0_compat; assumption.
  - assert (0 < - x) as Hn.
    { destruct (Qle_lt_or_eq _ _ H) as [H1|H1]; [lra|].
      exfalso. apply Hx. assumption. }
    setoid_replace (x * x) with ((- x) * (- x)) by ring.
    apply Qmult_lt_0_compat; assumption.
Qed.


Lemma bmi_sign_nonneg (weight height : Q) :
  ~ height == 0 -> 0 <= weight -> 0 <= weight / (height / 100) ^ 2.
Proof.
  intros Hh Hw.
  assert (0 < (height / 100) ^ 2) as Hd.
  { apply square_pos. intro E. apply Hh.
    assert (height == height / 100 * 100) as R by field.
    rewrite R, E. reflexivity. }
  unfold Qdiv at 1.
  assert (0 < / (height / 100) ^ 2) as Hi by (apply Qinv_lt_0_compat; exact Hd).
  apply Qmult_le_0_compat; lra.
Qed.

End Bmi.

(** ** The weight category *)

Section WeightCategory.
Open Scope Q_scope.

(** Turns the boolean comparisons of a goal's hypotheses into
    propositions that [lra] reads. *)
Ltac q_props :=
  repeat match goal with
    | H : PyNum.Qltb _ _ = true |- _ => apply Qltb_iff in H
    | H : PyNum.Qltb _ _ = false |- _ => apply Qltb_false in H
    | H : Qle_bool _ _ = true |- _ => apply Qle_bool_iff in H
    | H : Qle_bool _ _ = false |- _ => apply Qle_bool_false in H
    end.

Ltac by_brackets :=
  unfold weight_category;
  repeat match goal with
    | |- context [PyNum.Qltb ?x ?y] => destruct (PyNum.Qltb x y) eqn:?
    | |- context [Qle_bool ?x ?y] => destruct (Qle_bool x y) eqn:?
    end;
  simpl; q_props; try reflexivity; exfalso; lra.

Lemma weight_category_underweight (b : Q) :
  b < 18.5 -> weight_category b = "Underweight".
Proof. intro H. by_brackets. Qed.

Lemma weight_category_normal (b : Q) :
  18.5 <= b -> b < 25 -> weight_category b = "Normal weight".
Proof. intros H1 H2. by_brackets. Qed.

Lemma weight_category_overweight (b : Q) :
  25 <= b -> b < 30 -> weight_category b = "Overweight".
Proof. intros H1 H2. by_brackets. Qed.

Lemma weight_category_obese (b : Q) :
  30 <= b -> weight_category b = "Obese".
Proof. intro H. by_brackets. Qed.

Lemma weight_category_label (b : Q) : In (weight_category b) weight_labels.
Proof.
  unfold weight_category, weight_labels.
  repeat match goal with
    | |- context [if ?c then _ else _] => destruct c
    end; simpl; auto.
Qed.

End WeightCategory.

(** ** What a run of [analyze_health] returns *)

Lemma analyze_health_run age weight height bp sugar cholesterol raw :
  calculate_bmi weight height = Ok raw ->
  run (analyze_health age weight height bp sugar cholesterol)
  = (Ok {| bmi := PyNum.round1 raw;
           conditions := weight_category (PyNum.round1 raw)
                           :: pressure_part bp ++ sugar_part sugar
                           ++ cholesterol_part cholesterol;
           age := age |},
     pressure_log bp).
Proof.
  intro H.
  unfold run, analyze_health, bind, lift, pressure_part, pressure_log,
    sugar_part, cholesterol_part.
  rewrite H.
  destruct (parse_bp bp) as [[systolic diastolic]|];
    [destruct ((140 <=? systolic) || (90 <=? diastolic))%Z|];
    destruct (Qle_bool 126 sugar); destruct (Qle_bool 200 cholesterol);
    reflexivity.
Qed.

Lemma analyze_health_raise age weight height bp sugar cholesterol e :
  calculate_bmi weight height = Raise e ->
  run (analyze_health age weight height bp sugar cholesterol) = (Raise e, []).
Proof.
  intro H. unfold run, analyze_health, bind, lift. rewrite H. reflexivity.
Qed.

Lemma threshold_parts_subsequence bp sugar cholesterol :
  exists keep : string -> bool,
    pressure_part bp ++ sugar_part sugar ++ cholesterol_part cholesterol
    = filter keep threshold_labels.
Proof.
  exists (fun l => existsb (String.eqb l)
                     (pressure_part bp ++ sugar_part sugar
                        ++ cholesterol_part cholesterol)).
  unfold pressure_part, sugar_part, cholesterol_part.
  destruct (parse_bp bp) as [[systolic diastolic]|];
    [destruct ((140 <=? systolic) || (90 <=? diastolic))%Z|];
    destruct (Qle_bool 126 sugar); destruct (Qle_bool 200 cholesterol);
    reflexivity.
Qed.

Lemma filter_weight_label_thresholds (keep : string -> bool) :
  filter is_weight_label (filter keep threshold_labels) = [].
Proof.
  unfold threshold_labels. simpl.
  destruct (keep "Hypertension"); destruct (keep "High Blood Sugar");
    destruct (keep "High Cholesterol"); reflexivity.
Qed.

(** C1: for every valid input (positive weight and height, any other
    fields) [analyze_health] returns a condition list whose first element
    is one of the four weight-category labels, whose remaining elements are
    a selection of the three threshold labels in their order of evaluation,
    and which holds exactly one weight-category label. *)
Theorem C1_one_weight_label_first age weight height bp sugar cholesterol :
  (0 < weight)%Q -> (0 < height)%Q ->
  exists data log first rest keep,
    run (analyze_health age weight height bp sugar cholesterol)
    = (Ok data, log)
    /\ conditions data = first :: rest
    /\ In first weight_labels
    /\ rest = filter keep threshold_labels
    /\ Forall (fun label => In label threshold_labels) rest
    /\ List.length (filter is_weight_label (conditions data)) = 1%nat.
Proof.
  intros Hw Hh.
  assert (~ (height == 0)%Q) as Hn by lra.
  pose proof (calculate_bmi_nonzero_height weight height Hn) as Hb.
  destruct (threshold_parts_subsequence bp sugar cholesterol) as [keep Hk].
  eexists _, _, _, _, keep.
  split; [apply (analyze_health_run _ _ _ _ _ _ _ Hb)|].
  cbn [conditions]. split; [reflexivity|].
  split; [apply weight_category_label|].
  split; [exact Hk|].
  split.
  - rewrite Hk. apply Forall_forall. intros label Hl.
    apply filter_In in Hl. tauto.
  - rewrite Hk. cbn [filter].
    pose proof (weight_category_label
                  (PyNum.round1 (weight / (height / 100) ^ 2))) as Hl.
    assert (is_weight_label
              (weight_category (PyNum.round1 (weight / (height / 100) ^ 2)))
            = true) as E.
    { unfold is_weight_label. apply existsb_exists.
      eexists. split; [exact Hl|]. apply String.eqb_refl. }
    rewrite E, filter_weight_label_thresholds. reflexivity.
Qed.

Lemma C1_one_weight_label_first_witness :
  exists data log first rest keep,
    run (analyze_health 30 70 170 "120/80" 100 180) = (Ok data, log)
    /\ conditions data = first :: rest
    /\ In first weight_labels
    /\ rest = filter keep threshold_labels
    /\ Forall (fun label => In label threshold_labels) rest
    /\ List.length (filter is_weight_label (conditions data)) = 1%nat.
Proof.
  apply (C1_one_weight_label_first 30 70 170 "120/80" 100 180);
    reflexivity.
Defined.
(** Every run that returns went through [calculate_bmi]. *)
Lemma analyze_health_returns age weight height bp sugar cholesterol data log :
  run (analyze_health age weight height bp sugar cholesterol) = (Ok data, log) ->
  exists raw,
    calculate_bmi weight height = Ok raw
    /\ data = {| bmi := PyNum.round1 raw;
                 conditions := weight_category (PyNum.round1 raw)
                                 :: pressure_part bp ++ sugar_part sugar
                                 ++ cholesterol_part cholesterol;
                 age := age |}
    /\ log = pressure_log bp.
Proof.
  intro H. destruct (calculate_bmi weight height) as [raw|e] eqn:E.
  - rewrite (analyze_health_run _ _ _ _ _ _ _ E) in H.
    exists raw. inversion H. auto.
  - rewrite (analyze_health_raise _ _ _ _ _ _ _ E) in H. discriminate.
Qed.

(** C2: the first label of the returned condition list follows the BMI
    that is returned with it: below 18.5 Underweight, from 18.5 up to 25
    Normal weight, from 25 up to 30 Overweight, from 30 on Obese; a BMI
    of exactly 18.5, 25 or 30 falls in the upper bracket. *)
Theorem C2_weight_label_brackets
    age weight height bp sugar cholesterol data log :
  run (analyze_health age weight height bp sugar cholesterol) = (Ok data, log) ->
  let label := hd_error (conditions data) in
  ((bmi data < 18.5)%Q -> label = Some "Underweight")
  /\ ((18.5 <= bmi data)%Q -> (bmi data < 25)%Q -> label = Some "Normal weight")
  /\ ((25 <= bmi data)%Q -> (bmi data < 30)%Q -> label = Some "Overweight")
  /\ ((30 <= bmi data)%Q -> label = Some "Obese")
  /\ ((bmi data == 18.5)%Q -> label = Some "Normal weight")
  /\ ((bmi data == 25)%Q -> label = Some "Overweight")
  /\ ((bmi data == 30)%Q -> label = Some "Obese").
Proof.
  intros H label.
  destruct (analyze_health_returns _ _ _ _ _ _ _ _ H) as (raw & _ & -> & _).
  subst label. cbn [conditions bmi hd_error].
  repeat split; intros; f_equal.
  - apply weight_category_underweight; assumption.
  - apply weight_category_normal; assumption.
  - apply weight_category_overweight; assumption.
  - apply weight_category_obese; assumption.
  - apply weight_category_normal; lra.
  - apply weight_category_overweight; lra.
  - apply weight_category_obese; lra.
Qed.

(** At weight 72.25 and height 170 the BMI is exactly 25. *)
Lemma C2_weight_label_brackets_witness :
  let data := {| bmi := 25.0; conditions := ["Overweight"]; age := 30 |} in
  let label := hd_error (conditions data) in
  run (analyze_health 30 72.25 170 "120/80" 100 180) = (Ok data, [])
  /\ ((bmi data < 18.5)%Q -> label = Some "Underweight")
  /\ ((18.5 <= bmi data)%Q -> (bmi data < 25)%Q -> label = Some "Normal weight")
  /\ ((25 <= bmi data)%Q -> (bmi data < 30)%Q -> label = Some "Overweight")
  /\ ((30 <= bmi data)%Q -> label = Some "Obese")
  /\ ((bmi data == 18.5)%Q -> label = Some "Normal weight")
  /\ ((bmi data == 25)%Q -> label = Some "Overweight")
  /\ ((bmi data == 30)%Q -> label = Some "Obese").
Proof.
  split; [reflexivity|].
  apply (C2_weight_label_brackets 30 72.25 170 "120/80" 100 180 _ []).
  reflexivity.
Defined.

Example bmi_exactly_18_5 :
  run (analyze_health 30 74 200 "120/80" 100 180)
  = (Ok {| bmi := 18.5; conditions := ["Normal weight"]; age := 30 |}, []).
Proof. reflexivity. Qed.

Example bmi_exactly_30 :
  run (analyze_health 30 120 200 "120/80" 100 180)
  = (Ok {| bmi := 30.0; conditions := ["Obese"]; age := 30 |}, []).
Proof. reflexivity. Qed.

(** C7: the end-to-end scenario of the 45-year-old gives BMI 32.9 and
    the four conditions Obese, Hypertension, High Blood Sugar and High
    Cholesterol in this order, with nothing reported on the page. *)
Theorem C7_scenario_obese_all_conditions :
  run (analyze_health 45 95 170 "150/95" 130 210)
  = (Ok {| bmi := 32.9;
           conditions := ["Obese"; "Hypertension"; "High Blood Sugar";
                          "High Cholesterol"];
           age := 45 |},
     []).
Proof. vm_compute. reflexivity. Qed.

(** ** Non-positive height and weight *)


Lemma round1_nonneg (raw : Q) : (0 <= raw)%Q -> (0 <= PyNum.round1 raw)%Q.
Proof.
  intro H. unfold PyNum.round1, Qle. cbn [Qnum Qden].
  assert (0 <= PyNum.round_half_even (raw * 10))%Z
    by (apply round_half_even_nonneg; lra).
  lia.
Qed.




(** ** The threshold conditions *)

(** What [parse_bp] accepts: exactly two fields around one slash, each
    of which [int] reads. *)
Lemma parse_bp_spec (bp : string) (systolic diastolic : Z) :
  parse_bp bp = Some (systolic, diastolic)
  <-> exists a b,
        PyStr.split "/" bp = [a; b]
        /\ PyStr.int a = Some systolic /\ PyStr.int b = Some diastolic.
Proof.
  unfold parse_bp. split.
  - destruct (PyStr.split "/" bp) as [|a [|b [|c rest]]]; cbn [map].
    + discriminate.
    + destruct (PyStr.int a); discriminate.
    + destruct (PyStr.int a) as [x|] eqn:Ea; [|discriminate].
      destruct (PyStr.int b) as [y|] eqn:Eb; [|discriminate].
      intro H. inversion H. subst. exists a, b. auto.
    + destruct (PyStr.int a); [|discriminate].
      destruct (PyStr.int b); discriminate.
  - intros (a & b & -> & Ha & Hb). cbn [map]. rewrite Ha, Hb. reflexivity.
Qed.

Example int_accepts_and_rejects :
  map PyStr.int
    [" 5 "; "+5"; "-5"; "0140"; "1_0"; "- 5"; "_1"; "1__0"; "1_"; ""; "+"]
  = [Some 5; Some 5; Some (-5); Some 140; Some 10;
     None; None; None; None; None; None]%Z.
Proof. reflexivity. Qed.

Lemma weight_category_not_threshold (b : Q) :
  ~ In (weight_category b) threshold_labels.
Proof.
  pose proof (weight_category_label b) as H. intro T.
  unfold weight_labels, threshold_labels in *. cbn [In] in *.
  repeat match goal with
    | H : _ \/ _ |- _ => destruct H
    | H : False |- _ => destruct H
    end;
    congruence.
Qed.

Lemma in_pressure_part (label bp : string) :
  In label (pressure_part bp)
  <-> label = "Hypertension"
      /\ exists systolic diastolic,
           parse_bp bp = Some (systolic, diastolic)
           /\ (140 <= systolic \/ 90 <= diastolic)%Z.
Proof.
  unfold pressure_part.
  destruct (parse_bp bp) as [[systolic diastolic]|].
  - destruct ((140 <=? systolic) || (90 <=? diastolic))%Z eqn:E.
    + apply orb_true_iff in E. rewrite !Z.leb_le in E. cbn [In]. split.
      * intros [<-|[]]. split; [reflexivity|]. eauto.
      * intros [-> _]. auto.
    + apply orb_false_iff in E. rewrite !Z.leb_gt in E. cbn [In]. split.
      * intros [].
      * intros (_ & s & d & H & Hor). inversion H. subst. lia.
  - cbn [In]. split; [intros []|].
    intros (_ & s & d & H & _). discriminate.
Qed.

Lemma in_sugar_part (label : string) (sugar : Q) :
  In label (sugar_part sugar)
  <-> label = "High Blood Sugar" /\ (126 <= sugar)%Q.
Proof.
  unfold sugar_part. destruct (Qle_bool 126 sugar) eqn:E; cbn [In].
  - apply Qle_bool_iff in E. split.
    + intros [<-|[]]. auto.
    + intros [-> _]. auto.
  - apply Qle_bool_false in E. split; [intros []|].
    intros [_ H]. lra.
Qed.

Lemma in_cholesterol_part (label : string) (cholesterol : Q) :
  In label (cholesterol_part cholesterol)
  <-> label = "High Cholesterol" /\ (200 <= cholesterol)%Q.
Proof.
  unfold cholesterol_part. destruct (Qle_bool 200 cholesterol) eqn:E;
    cbn [In].
  - apply Qle_bool_iff in E. split.
    + intros [<-|[]]. auto.
    + intros [-> _]. auto.
  - apply Qle_bool_false in E. split; [intros []|].
    intros [_ H]. lra.
Qed.

(** Membership of a threshold label in the returned list, check by
    check. *)
Lemma in_conditions (label : string) (b : Q) bp sugar cholesterol :
  In label threshold_labels ->
  (In label (weight_category b :: pressure_part bp ++ sugar_part sugar
               ++ cholesterol_part cholesterol)
   <-> In label (pressure_part bp) \/ In label (sugar_part sugar)
       \/ In label (cholesterol_part cholesterol)).
Proof.
  intro Hl. cbn [In]. rewrite !in_app_iff. split.
  - intros [E|H]; [|exact H].
    exfalso. apply (weight_category_not_threshold b). rewrite E. exact Hl.
  - auto.
Qed.

(** C4: in the list a run returns, Hypertension is present exactly when
    the blood-pressure text parses to two integers with systolic at least
    140 or diastolic at least 90; High Blood Sugar exactly when the
    fasting glucose is at least 126; High Cholesterol exactly when the
    total cholesterol is at least 200.  The three bounds are inclusive. *)
Theorem C4_threshold_conditions
    age weight height bp sugar cholesterol data log :
  run (analyze_health age weight height bp sugar cholesterol) = (Ok data, log) ->
  (In "Hypertension" (conditions data)
   <-> exists systolic diastolic,
         parse_bp bp = Some (systolic, diastolic)
         /\ (140 <= systolic \/ 90 <= diastolic)%Z)
  /\ (In "High Blood Sugar" (conditions data) <-> (126 <= sugar)%Q)
  /\ (In "High Cholesterol" (conditions data) <-> (200 <= cholesterol)%Q).
Proof.
  intro H.
  destruct (analyze_health_returns _ _ _ _ _ _ _ _ H) as (raw & _ & -> & _).
  cbn [conditions].
  repeat split;
    try (intro Hin; apply in_conditions in Hin;
         [|unfold threshold_labels; cbn [In]; tauto];
         rewrite in_pressure_part, in_sugar_part, in_cholesterol_part in Hin;
         destruct Hin as [[E Hin]|[[E Hin]|[E Hin]]];
         try discriminate E; exact Hin);
    intro Hc; apply in_conditions;
    try (unfold threshold_labels; cbn [In]; tauto);
    rewrite in_pressure_part, in_sugar_part, in_cholesterol_part; auto.
Qed.

(** At the three bounds themselves: 140/90, 126 and 200. *)
Lemma C4_threshold_conditions_witness :
  let data := {| bmi := 24.2;
                 conditions := ["Normal weight"; "Hypertension";
                                "High Blood Sugar"; "High Cholesterol"];
                 age := 30 |} in
  run (analyze_health 30 70 170 "140/90" 126 200) = (Ok data, [])
  /\ (In "Hypertension" (conditions data)
      <-> exists systolic diastolic,
            parse_bp "140/90" = Some (systolic, diastolic)
            /\ (140 <= systolic \/ 90 <= diastolic)%Z)
  /\ (In "High Blood Sugar" (conditions data) <-> (126 <= 126)%Q)
  /\ (In "High Cholesterol" (conditions data) <-> (200 <= 200)%Q).
Proof.
  split; [reflexivity|].
  apply (C4_threshold_conditions 30 70 170 "140/90" 126 200 _ []).
  reflexivity.
Defined.

Example pressure_140_over_89 :
  parse_bp "140/89" = Some (140, 89)%Z
  /\ pressure_part "140/89" = ["Hypertension"].
Proof. split; reflexivity. Qed.

Example pressure_139_over_90 :
  parse_bp "139/90" = Some (139, 90)%Z
  /\ pressure_part "139/90" = ["Hypertension"].
Proof. split; reflexivity. Qed.

Example pressure_139_over_89 :
  parse_bp "139/89" = Some (139, 89)%Z /\ pressure_part "139/89" = [].
Proof. split; reflexivity. Qed.

Example just_below_the_bounds :
  run (analyze_health 30 70 170 "139/89" 125.9 199.9)
  = (Ok {| bmi := 24.2; conditions := ["Normal weight"]; age := 30 |}, []).
Proof. reflexivity. Qed.

(** ** Rounding before classification *)



(** What a run of the analysis returns in binary64. *)
Lemma binary64_analyze_health_run age weight height bp sugar cholesterol raw :
  Binary64.calculate_bmi weight height = Ok raw ->
  exists rest,
    run (Binary64.analyze_health age weight height bp sugar cholesterol)
    = (Ok {| bmi := Binary64.round1 raw;
             conditions := weight_category (Binary64.round1 raw) :: rest;
             age := age |},
       pressure_log bp).
Proof.
  intro H.
  unfold run, Binary64.analyze_health, bind, lift, pressure_log.
  rewrite H.
  destruct (parse_bp bp) as [[systolic diastolic]|];
    [destruct ((140 <=? systolic) || (90 <=? diastolic))%Z|];
    destruct (126 <=? sugar)%Z; destruct (200 <=? cholesterol)%Z;
    eexists; reflexivity.
Qed.

(** The same holds of the machine arithmetic, for the whole numbers a
    double holds exactly: a computed quotient above 24.95 and below 25 is
    reported as 25.0 and labelled Overweight, and likewise at 18.5 and
    30. *)
Lemma binary64_label_from_rounded_bmi
    age weight height bp sugar cholesterol raw :
  (Z.abs weight < 2 ^ 53)%Z -> (Z.abs height < 2 ^ 53)%Z ->
  Binary64.calculate_bmi weight height = Ok raw ->
  exists data log,
    run (Binary64.analyze_health age weight height bp sugar cholesterol)
    = (Ok data, log)
    /\ bmi data = Binary64.round1 raw
    /\ hd_error (conditions data) = Some (weight_category (bmi data))
    /\ ((24.95 < raw)%Q -> (raw < 25)%Q ->
        (bmi data == 25.0)%Q
        /\ hd_error (conditions data) = Some "Overweight"
        /\ weight_category raw = "Normal weight")
    /\ ((18.45 < raw)%Q -> (raw < 18.5)%Q ->
        (bmi data == 18.5)%Q
        /\ hd_error (conditions data) = Some "Normal weight"
        /\ weight_category raw = "Underweight")
    /\ ((29.95 < raw)%Q -> (raw < 30)%Q ->
        (bmi data == 30.0)%Q
        /\ hd_error (conditions data) = Some "Obese"
        /\ weight_category raw = "Overweight").
Proof.
  intros _ _ H.
  destruct (binary64_analyze_health_run age weight height bp sugar
              cholesterol raw H) as [rest E].
  eexists _, _. split; [exact E|].
  cbn [bmi conditions hd_error].
  split; [reflexivity|]. split; [reflexivity|].
  unfold Binary64.round1.
  split; [|split]; intros Hlo Hhi.
  - rewrite (round1_bracket_open raw 250)
      by (change (inject_Z 250) with 250%Q; lra).
    split; [vm_compute; reflexivity|]. split; [reflexivity|].
    apply weight_category_normal; lra.
  - rewrite (round1_bracket_open raw 185)
      by (change (inject_Z 185) with 185%Q; lra).
    split; [vm_compute; reflexivity|]. split; [reflexivity|].
    apply weight_category_underweight; lra.
  - rewrite (round1_bracket_open raw 300)
      by (change (inject_Z 300) with 300%Q; lra).
    split; [vm_compute; reflexivity|]. split; [reflexivity|].
    apply weight_category_overweight; lra.
Qed.


Example quotient_just_below_25 :
  run (analyze_health 30 80 179 "120/80" 100 180)
  = (Ok {| bmi := 25.0; conditions := ["Overweight"]; age := 30 |}, []).
Proof. reflexivity. Qed.

(** An exact tie below 18.5 goes to the even tenth 18.4. *)
Example tie_at_18_45_rounds_down :
  PyNum.round1 18.45 = 18.4%Q /\ weight_category 18.4 = "Underweight".
Proof. split; reflexivity. Qed.

(** ** The button handler *)

Lemma on_generate_run index age weight height bp sugar cholesterol data log :
  run (analyze_health age weight height bp sugar cholesterol) = (Ok data, log) ->
  let query := PyStr.join " " (conditions data) in
  run (on_generate (Some index) age weight height bp sugar cholesterol)
  = (Ok tt, log ++ retrieve_call 2 query :: outcome_events data (index 2%nat query)).
Proof.
  intros H query. unfold run in *.
  unfold on_generate, try_except, bind at 1. rewrite H.
  unfold retrieve, bind, emit, lift, outcome_events. fold query.
  destruct (index 2%nat query) as [nodes|e].
  - destruct (generate_diet_plan data (PyStr.join PyStr.nl nodes)).
    + rewrite <- !app_assoc. reflexivity.
    + rewrite <- !app_assoc. reflexivity.
  - rewrite <- !app_assoc. reflexivity.
Qed.







Example scenario_query :
  retrieval_requests
    (snd (run (on_generate (Some first_k_index) 45 95 170 "150/95" 130 210)))
  = [(2%nat, "Obese Hypertension High Blood Sugar High Cholesterol")].
Proof. reflexivity. Qed.

Example join_single_spaces (a b c : string) :
  PyStr.join " " [a] = a
  /\ PyStr.join " " [a; b; c] = (a ++ " " ++ b ++ " " ++ c)%string.
Proof. split; reflexivity. Qed.

(** ** A blood pressure that does not parse *)

(** C5: when the blood-pressure text is not two integers around one
    slash, the run still returns: the page shows the format message, the
    list holds the weight label and the glucose and cholesterol labels
    that apply, without Hypertension, and the handler goes on to query
    the knowledge store and to show whatever the answer yields. *)
Theorem C5_malformed_pressure_skipped
    index age weight height bp sugar cholesterol :
  ~ (height == 0)%Q ->
  parse_bp bp = None ->
  exists data,
    run (analyze_health age weight height bp sugar cholesterol)
    = (Ok data, [st_error bp_format_message])
    /\ conditions data
       = weight_category (bmi data)
           :: sugar_part sugar ++ cholesterol_part cholesterol
    /\ ~ In "Hypertension" (conditions data)
    /\ run (on_generate (Some index) age weight height bp sugar cholesterol)
       = (Ok tt,
          st_error bp_format_message
            :: retrieve_call 2 (PyStr.join " " (conditions data))
            :: outcome_events data
                 (index 2%nat (PyStr.join " " (conditions data)))).
Proof.
  intros Hn Hbp.
  pose proof (analyze_health_run age weight height bp sugar cholesterol _
                (calculate_bmi_nonzero_height weight height Hn)) as Hrun.
  assert (pressure_part bp = []) as Hpp
    by (unfold pressure_part; rewrite Hbp; reflexivity).
  assert (pressure_log bp = [st_error bp_format_message]) as Hpl
    by (unfold pressure_log; rewrite Hbp; reflexivity).
  rewrite Hpp, Hpl in Hrun. cbn [app] in Hrun.
  eexists. split; [exact Hrun|]. cbn [conditions bmi].
  split; [reflexivity|]. split.
  - intro Hin.
    assert (In "Hypertension" threshold_labels) as Ht
      by (unfold threshold_labels; cbn [In]; tauto).
    destruct Hin as [E|Hin].
    + apply (weight_category_not_threshold
               (PyNum.round1 (weight / (height / 100) ^ 2))).
      rewrite E. exact Ht.
    + apply in_app_iff in Hin.
      rewrite in_sugar_part, in_cholesterol_part in Hin.
      destruct Hin as [[E _]|[E _]]; discriminate E.
  - rewrite (on_generate_run index _ _ _ _ _ _ _ _ Hrun). reflexivity.
Qed.

Lemma C5_malformed_pressure_skipped_witness :
  ~ (170 == 0)%Q
  /\ parse_bp "abc" = None
  /\ exists data,
       run (analyze_health 45 95 170 "abc" 130 210)
       = (Ok data, [st_error bp_format_message])
       /\ conditions data
          = weight_category (bmi data) :: sugar_part 130 ++ cholesterol_part 210
       /\ ~ In "Hypertension" (conditions data)
       /\ run (on_generate (Some first_k_index) 45 95 170 "abc" 130 210)
          = (Ok tt,
             st_error bp_format_message
               :: retrieve_call 2 (PyStr.join " " (conditions data))
               :: outcome_events data
                    (first_k_index 2%nat
                       (PyStr.join " " (conditions data)))).
Proof.
  split; [discriminate|]. split; [reflexivity|].
  apply (C5_malformed_pressure_skipped first_k_index 45 95 170 "abc" 130 210);
    [discriminate | reflexivity].
Defined.

Example malformed_pressure_run :
  run (analyze_health 45 95 170 "abc" 130 210)
  = (Ok {| bmi := 32.9;
           conditions := ["Obese"; "High Blood Sugar"; "High Cholesterol"];
           age := 45 |},
     [st_error bp_format_message]).
Proof. reflexivity. Qed.

Example malformed_pressures :
  map parse_bp ["abc"; "120"; "120/80/1"; "120/"; "/80"; "12o/80"; "120 / 80"]
  = [None; None; None; None; None; None; Some (120, 80)%Z].
Proof. reflexivity. Qed.

(** ** Recommendations *)

Lemma scan_context_spec (lines acc : list string) :
  scan_context lines acc = acc ++ map PyStr.strip (filter qualifies lines).
Proof.
  revert acc. induction lines as [|line rest IH]; intro acc.
  - cbn. rewrite app_nil_r. reflexivity.
  - cbn [scan_context filter]. unfold qualifies at 1.
    destruct (PyStr.startswith (PyStr.strip line) "- ").
    + rewrite IH. cbn [map]. rewrite <- app_assoc. reflexivity.
    + apply IH.
Qed.

Lemma extracted_lines_empty_context : extracted_lines "" = [].
Proof. reflexivity. Qed.

(** The loop and the two guards of the source, in one equation. *)
Lemma recommendations_for_spec (context : string) :
  recommendations_for context
  = match extracted_lines context with
    | [] => base_recommendations
    | _ :: _ => extracted_lines context
    end.
Proof.
  unfold recommendations_for, extracted_lines.
  destruct context as [|c rest]; [reflexivity|].
  rewrite scan_context_spec. cbn [app].
  destruct (map PyStr.strip
              (filter qualifies
                 (PyStr.split (ascii_of_nat 10) (String c rest))));
    reflexivity.
Qed.

Lemma extracted_lines_marked (context : string) :
  Forall (fun r => PyStr.startswith r "- " = true) (extracted_lines context).
Proof.
  unfold extracted_lines. apply Forall_forall. intros r Hr.
  apply in_map_iff in Hr. destruct Hr as (line & <- & Hl).
  apply filter_In in Hl. exact (proj2 Hl).
Qed.

Lemma base_recommendations_unmarked :
  Forall (fun r => PyStr.startswith r "- " = false) base_recommendations.
Proof. repeat constructor. Qed.

Lemma startswith_marker (r : string) :
  PyStr.startswith r "- " = true -> exists rest, r = ("- " ++ rest)%string.
Proof.
  unfold PyStr.startswith. intro H. apply prefix_correct in H.
  destruct r as [|c1 [|c2 rest]]; cbn in H; try discriminate.
  injection H as -> -> _. exists rest. reflexivity.
Qed.



Example two_qualifying_lines_of_three :
  recommendations_for
    ("  - first" ++ PyStr.nl ++ "not a bullet" ++ PyStr.nl ++ "- second  ")
  = ["- first"; "- second"].
Proof. reflexivity. Qed.

Example no_qualifying_line :
  recommendations_for ("-no space" ++ PyStr.nl ++ "text - inside")
  = base_recommendations.
Proof. reflexivity. Qed.

(** ** The rendered plan *)

(** C10: the plan text holds, between the head and the tail of the
    template, one line per recommendation, each the recommendation behind
    the prefix "- ".  Extracted recommendations keep their own marker, so
    each of their lines begins "- - "; the three defaults give lines with
    a single "- ". *)
Theorem C10_bullet_lines (data : health_data) (context plan : string) :
  generate_diet_plan data context = Some plan ->
  let recommendations := recommendations_for context in
  exists first,
    hd_error (conditions data) = Some first
    /\ plan = (plan_head data first
               ++ PyStr.join PyStr.nl (map bullet recommendations)
               ++ plan_tail)%string
    /\ Forall (fun rec => bullet rec = ("- " ++ rec)%string) recommendations
    /\ (extracted_lines context <> [] ->
        recommendations = extracted_lines context
        /\ Forall (fun rec => exists rest, bullet rec = ("- - " ++ rest)%string)
             recommendations)
    /\ (extracted_lines context = [] ->
        map bullet recommendations
        = [ "- Balanced nutrition with variety of foods";
            "- Stay hydrated (8 glasses of water daily)";
            "- Regular meal timings" ]).
Proof.
  intros H recommendations. unfold generate_diet_plan in H.
  destruct (conditions data) as [|first rest]; [discriminate|].
  exists first. split; [reflexivity|].
  split; [inversion H; reflexivity|].
  split; [apply Forall_forall; reflexivity|].
  subst recommendations. rewrite recommendations_for_spec.
  pose proof (extracted_lines_marked context) as Hm.
  destruct (extracted_lines context) as [|r0 l]; split; try congruence.
  - intros _. reflexivity.
  - intros _. split; [reflexivity|].
    apply Forall_forall. intros rec Hr.
    rewrite Forall_forall in Hm.
    destruct (startswith_marker rec (Hm rec Hr)) as [rest' ->].
    exists rest'. reflexivity.
Qed.

(** The plan of the 45-year-old with the first document as context. *)
Lemma C10_bullet_lines_witness :
  let data := {| bmi := 32.9;
                 conditions := ["Obese"; "Hypertension"; "High Blood Sugar";
                                "High Cholesterol"];
                 age := 45 |} in
  let context := nth 0 documents "" in
  exists plan,
    generate_diet_plan data context = Some plan
    /\ map bullet (recommendations_for context)
       = [ "- - Sodium restriction <1500mg/day";
           "- - Potassium-rich foods: bananas, spinach, sweet potatoes";
           "- - Whole grains and lean proteins";
           "- - Limit alcohol/caffeine" ]
    /\ Forall (fun rec => exists rest, bullet rec = ("- - " ++ rest)%string)
         (recommendations_for context).
Proof.
  eexists. split; [reflexivity|]. split; [reflexivity|].
  destruct (C10_bullet_lines
              {| bmi := 32.9;
                 conditions := ["Obese"; "Hypertension"; "High Blood Sugar";
                                "High Cholesterol"];
                 age := 45 |}
              (nth 0 documents "") _ eq_refl)
    as (first & _ & _ & _ & Hext & _).
  apply Hext. discriminate.
Defined.

Example default_bullets_in_plan :
  generate_diet_plan
    {| bmi := 24.2; conditions := ["Normal weight"]; age := 30 |} ""
  = Some (plan_head
            {| bmi := 24.2; conditions := ["Normal weight"]; age := 30 |}
            "Normal weight"
          ++ "- Balanced nutrition with variety of foods" ++ PyStr.nl
          ++ "- Stay hydrated (8 glasses of water daily)" ++ PyStr.nl
          ++ "- Regular meal timings"
          ++ plan_tail)%string.
Proof. reflexivity. Qed.

(** ** Rounding is monotone and exact to half a tenth *)

Section RoundingOrder.
Import PyNum.
Open Scope Q_scope.

Lemma round_half_even_comp (x y : Q) :
  x == y -> round_half_even x = round_half_even y.
Proof.
  intro H. unfold round_half_even.
  rewrite (Qfloor_comp x y H).
  assert (((x - inject_Z (Qfloor y)) ?= (1 # 2))
          = ((y - inject_Z (Qfloor y)) ?= (1 # 2))) as E.
  { apply Qcompare_comp; [rewrite H|]; reflexivity. }
  rewrite E. reflexivity.
Qed.

Lemma round_half_even_mono (x y : Q) :
  x <= y -> (round_half_even x <= round_half_even y)%Z.
Proof.
  intro H.
  destruct (Z.le_gt_cases (round_half_even x) (round_half_even y)) as [L|G];
    [exact L|].
  exfalso.
  pose proof (round_half_even_near x) as [Hx _].
  pose proof (round_half_even_near y) as [_ Hy].
  assert (round_half_even y + 1 <= round_half_even x)%Z as G' by lia.
  rewrite Zle_Qle in G'. rewrite inject_Z_succ in G'.
  assert (x == y) as E by lra.
  apply round_half_even_comp in E. lia.
Qed.

Lemma tenths_le (n m : Z) : n # 10 <= m # 10 <-> (n <= m)%Z.
Proof. unfold Qle. simpl. lia. Qed.

Lemma round1_mono (x y : Q) : x <= y -> round1 x <= round1 y.
Proof.
  intro H. unfold round1. apply tenths_le. apply round_half_even_mono. lra.
Qed.

Lemma round1_comp (x y : Q) : x == y -> round1 x = round1 y.
Proof.
  intro H. unfold round1. f_equal. apply round_half_even_comp.
  rewrite H. reflexivity.
Qed.



End RoundingOrder.

Section CategoryOrder.
Open Scope Q_scope.

Lemma weight_category_rank_mono (b1 b2 : Q) :
  b1 <= b2 ->
  (label_rank (weight_category b1) <= label_rank (weight_category b2))%nat.
Proof.
  intro H. unfold weight_category.
  repeat match goal with
    | |- context [PyNum.Qltb ?x ?y] => destruct (PyNum.Qltb x y) eqn:?
    | |- context [Qle_bool ?x ?y] => destruct (Qle_bool x y) eqn:?
    end;
  cbn;
  repeat match goal with
    | H : PyNum.Qltb _ _ = true |- _ => apply Qltb_iff in H
    | H : PyNum.Qltb _ _ = false |- _ => apply Qltb_false in H
    | H : Qle_bool _ _ = true |- _ => apply Qle_bool_iff in H
    | H : Qle_bool _ _ = false |- _ => apply Qle_bool_false in H
    end;
  try lia; exfalso; lra.
Qed.

Lemma bmi_quotient_mono (w1 w2 height : Q) :
  ~ height == 0 -> w1 <= w2 ->
  w1 / (height / 100) ^ 2 <= w2 / (height / 100) ^ 2.
Proof.
  intros Hh Hw.
  assert (0 < (height / 100) ^ 2) as Hd.
  { apply square_pos. intro E. apply Hh.
    assert (height == height / 100 * 100) as R by field.
    rewrite R, E. reflexivity. }
  unfold Qdiv at 1 3.
  assert (0 < / (height / 100) ^ 2) as Hi by (apply Qinv_lt_0_compat; exact Hd).
  apply Qmult_le_compat_r; lra.
Qed.

Lemma bmi_quotient_opp (weight height : Q) :
  weight / (- height / 100) ^ 2 == weight / (height / 100) ^ 2.
Proof.
  assert ((- height / 100) ^ 2 == (height / 100) ^ 2) as E.
  { simpl. field. }
  rewrite E. reflexivity.
Qed.

End CategoryOrder.



(** X2: at the same height a greater weight never gives a smaller BMI nor
    a lower weight label; the other inputs play no part in either. *)
Theorem heavier_never_lower_category
    age1 age2 w1 w2 height bp1 bp2 sugar1 sugar2 chol1 chol2 data1 data2
    log1 log2 :
  (w1 <= w2)%Q ->
  run (analyze_health age1 w1 height bp1 sugar1 chol1) = (Ok data1, log1) ->
  run (analyze_health age2 w2 height bp2 sugar2 chol2) = (Ok data2, log2) ->
  (bmi data1 <= bmi data2)%Q
  /\ exists label1 label2,
       hd_error (conditions data1) = Some label1
       /\ hd_error (conditions data2) = Some label2
       /\ (label_rank label1 <= label_rank label2)%nat.
Proof.
  intros Hw H1 H2.
  destruct (analyze_health_returns _ _ _ _ _ _ _ _ H1) as (raw1 & E1 & -> & _).
  destruct (analyze_health_returns _ _ _ _ _ _ _ _ H2) as (raw2 & E2 & -> & _).
  cbn [bmi conditions hd_error].
  assert (~ (height == 0)%Q) as Hh.
  { intro Z. rewrite (calculate_bmi_zero_height w1 height Z) in E1.
    discriminate. }
  rewrite (calculate_bmi_nonzero_height w1 _ Hh) in E1.
  rewrite (calculate_bmi_nonzero_height w2 _ Hh) in E2.
  injection E1 as <-. injection E2 as <-.
  assert (PyNum.round1 (w1 / (height / 100) ^ 2)
          <= PyNum.round1 (w2 / (height / 100) ^ 2))%Q as Hb.
  { apply round1_mono. apply bmi_quotient_mono; assumption. }
  split; [exact Hb|].
  eexists. eexists. split; [reflexivity|]. split; [reflexivity|].
  apply weight_category_rank_mono. exact Hb.
Qed.

Lemma heavier_never_lower_category_witness :
  let data1 := {| bmi := 24.2; conditions := ["Normal weight"]; age := 30 |} in
  let data2 := {| bmi := 32.9;
                  conditions := ["Obese"; "Hypertension"; "High Blood Sugar";
                                 "High Cholesterol"];
                  age := 45 |} in
  (70 <= 95)%Q
  /\ run (analyze_health 30 70 170 "120/80" 100 180) = (Ok data1, [])
  /\ run (analyze_health 45 95 170 "150/95" 130 220) = (Ok data2, [])
  /\ (bmi data1 <= bmi data2)%Q
  /\ exists label1 label2,
       hd_error (conditions data1) = Some label1
       /\ hd_error (conditions data2) = Some label2
       /\ (label_rank label1 <= label_rank label2)%nat.
Proof.
  split; [discriminate|]. split; [reflexivity|]. split; [reflexivity|].
  apply (heavier_never_lower_category
           30 45 70 95 170 "120/80" "150/95" 100 130 180 220 _ _ [] []).
  - discriminate.
  - reflexivity.
  - reflexivity.
Defined.

(** X3: the height enters the computation only through its square: a
    run with the height negated returns the same record and shows the
    same messages. *)
Theorem height_sign_ignored age weight height bp sugar cholesterol :
  run (analyze_health age weight (- height) bp sugar cholesterol)
  = run (analyze_health age weight height bp sugar cholesterol).
Proof.
  destruct (Qeq_dec height 0) as [Z|N].
  - assert (- height == 0)%Q as Z' by (rewrite Z; reflexivity).
    rewrite !(analyze_health_raise _ _ _ _ _ _ ZeroDivisionError);
      [reflexivity | |];
      apply calculate_bmi_zero_height; assumption.
  - assert (~ (- height == 0)%Q) as N'.
    { intro Z. apply N. lra. }
    rewrite (analyze_health_run _ _ _ _ _ _ _
               (calculate_bmi_nonzero_height weight (- height) N')).
    rewrite (analyze_health_run _ _ _ _ _ _ _
               (calculate_bmi_nonzero_height weight height N)).
    rewrite (round1_comp _ _ (bmi_quotient_opp weight height)).
    reflexivity.
Qed.

(** ** No condition twice *)

(** X4: no condition is listed twice, and a run lists between one and
    four of them. *)
Theorem conditions_distinct_at_most_four
    age weight height bp sugar cholesterol data log :
  run (analyze_health age weight height bp sugar cholesterol) = (Ok data, log) ->
  NoDup (conditions data)
  /\ (1 <= List.length (conditions data) <= 4)%nat.
Proof.
  intro H.
  destruct (analyze_health_returns _ _ _ _ _ _ _ _ H) as (raw & _ & -> & _).
  cbn [conditions].
  pose proof (weight_category_label (PyNum.round1 raw)) as Hl.
  unfold weight_labels in Hl. cbn [In] in Hl.
  unfold pressure_part, sugar_part, cholesterol_part.
  destruct (parse_bp bp) as [[systolic diastolic]|];
    [destruct ((140 <=? systolic) || (90 <=? diastolic))%Z|];
    destruct (Qle_bool 126 sugar); destruct (Qle_bool 200 cholesterol);
    destruct Hl as [<-|[<-|[<-|[<-|[]]]]];
    cbn [app]; (split; [|cbn; lia]);
    repeat (constructor; [cbn [In]; intuition discriminate|]); constructor.
Qed.

Lemma conditions_distinct_at_most_four_witness :
  let data := {| bmi := 32.9;
                 conditions := ["Obese"; "Hypertension"; "High Blood Sugar";
                                "High Cholesterol"];
                 age := 45 |} in
  run (analyze_health 45 95 170 "150/95" 130 220) = (Ok data, [])
  /\ NoDup (conditions data)
  /\ (1 <= List.length (conditions data) <= 4)%nat.
Proof.
  split; [reflexivity|].
  apply (conditions_distinct_at_most_four 45 95 170 "150/95" 130 220 _ []).
  reflexivity.
Defined.

(** ** Splitting and joining *)

Section SplitJoin.
Variable sep : ascii.

Lemma split_nonempty (s : string) : PyStr.split sep s <> [].
Proof.
  destruct s as [|c s]; cbn; [discriminate|].
  destruct (Ascii.eqb c sep); [discriminate|].
  destruct (PyStr.split sep s); discriminate.
Qed.

Lemma split_app_sep (a b : string) :
  PyStr.split sep (a ++ String sep b)
  = PyStr.split sep a ++ PyStr.split sep b.
Proof.
  induction a as [|c a IH]; cbn.
  - rewrite Ascii.eqb_refl. reflexivity.
  - destruct (Ascii.eqb c sep); [rewrite IH; reflexivity|].
    rewrite IH.
    destruct (PyStr.split sep a) as [|h t] eqn:E; [|reflexivity].
    exfalso. exact (split_nonempty a E).
Qed.

Lemma split_length (s : string) :
  List.length (PyStr.split sep s) = S (count_char sep s).
Proof.
  induction s as [|c s IH]; cbn; [reflexivity|].
  destruct (Ascii.eqb c sep); cbn; [rewrite IH; reflexivity|].
  destruct (PyStr.split sep s) as [|h t]; cbn in *; [discriminate|exact IH].
Qed.

Lemma split_no_sep (s : string) :
  count_char sep s = 0%nat -> PyStr.split sep s = [s].
Proof.
  induction s as [|c s IH]; cbn; [reflexivity|].
  destruct (Ascii.eqb c sep); [discriminate|].
  intro H. rewrite (IH H). reflexivity.
Qed.

Lemma split_join (texts : list string) :
  texts <> [] ->
  PyStr.split sep (PyStr.join (String sep EmptyString) texts)
  = List.concat (map (PyStr.split sep) texts).
Proof.
  induction texts as [|t rest IH]; [congruence|]. intros _.
  destruct rest as [|t' rest].
  - cbn. rewrite app_nil_r. reflexivity.
  - change (PyStr.join (String sep EmptyString) (t :: t' :: rest))
      with (t ++ String sep (PyStr.join (String sep EmptyString) (t' :: rest)))%string.
    rewrite split_app_sep, IH by discriminate. reflexivity.
Qed.

Lemma count_char_app (a b : string) :
  count_char sep (a ++ b) = (count_char sep a + count_char sep b)%nat.
Proof.
  induction a as [|c a IH]; cbn; [reflexivity|]. rewrite IH. lia.
Qed.

End SplitJoin.

Lemma map_filter_concat {A B : Type} (f : A -> B) (p : A -> bool)
    (ls : list (list A)) :
  map f (filter p (List.concat ls))
  = List.concat (map (fun l => map f (filter p l)) ls).
Proof.
  induction ls as [|l ls IH]; [reflexivity|].
  cbn [List.concat map]. rewrite filter_app, map_app, IH. reflexivity.
Qed.

Lemma extracted_lines_join (texts : list string) :
  extracted_lines (PyStr.join PyStr.nl texts)
  = List.concat (map extracted_lines texts).
Proof.
  destruct texts as [|t rest]; [reflexivity|].
  unfold extracted_lines, PyStr.nl.
  rewrite split_join by discriminate.
  rewrite map_filter_concat, map_map. reflexivity.
Qed.

(** ** Trimming *)

Section StripFacts.
Variable sp : ascii -> bool.

Lemma lstrip_head (s : string) :
  match PyStr.lstrip_with sp s with
  | EmptyString => True
  | String c _ => sp c = false
  end.
Proof.
  induction s as [|c s IH]; cbn; [exact I|].
  destruct (sp c) eqn:E; [exact IH | exact E].
Qed.

Lemma rstrip_idempotent (s : string) :
  PyStr.rstrip_with sp (PyStr.rstrip_with sp s) = PyStr.rstrip_with sp s.
Proof.
  induction s as [|c s IH]; cbn; [reflexivity|].
  destruct (PyStr.rstrip_with sp s) as [|c' r] eqn:E.
  - destruct (sp c) eqn:Ec; cbn; [reflexivity|]. rewrite Ec. reflexivity.
  - change (PyStr.rstrip_with sp (String c (String c' r)))
      with (match PyStr.rstrip_with sp (String c' r) with
            | EmptyString => if sp c then EmptyString else String c EmptyString
            | String x y => String c (String x y)
            end).
    rewrite IH. reflexivity.
Qed.

Lemma rstrip_keeps_head (c : ascii) (s : string) :
  sp c = false -> exists r, PyStr.rstrip_with sp (String c s) = String c r.
Proof.
  intro H. cbn. destruct (PyStr.rstrip_with sp s); [rewrite H|]; eauto.
Qed.

Lemma strip_idempotent (s : string) :
  PyStr.strip_with sp (PyStr.strip_with sp s) = PyStr.strip_with sp s.
Proof.
  unfold PyStr.strip_with.
  pose proof (lstrip_head s) as H.
  destruct (PyStr.lstrip_with sp s) as [|c t]; [reflexivity|].
  destruct (rstrip_keeps_head c t H) as [r E]. rewrite E.
  cbn [PyStr.lstrip_with]. rewrite H. rewrite <- E. apply rstrip_idempotent.
Qed.

Lemma lstrip_all_spaces (pad : string) :
  all_chars sp pad = true -> PyStr.lstrip_with sp pad = "".
Proof.
  induction pad as [|c pad IH]; cbn; [reflexivity|].
  intro H. apply andb_true_iff in H. destruct H as [Hc Hp].
  rewrite Hc. exact (IH Hp).
Qed.

Lemma rstrip_all_spaces (pad : string) :
  all_chars sp pad = true -> PyStr.rstrip_with sp pad = "".
Proof.
  induction pad as [|c pad IH]; cbn; [reflexivity|].
  intro H. apply andb_true_iff in H. destruct H as [Hc Hp].
  rewrite (IH Hp), Hc. reflexivity.
Qed.

Lemma lstrip_app_left (pad s : string) :
  all_chars sp pad = true ->
  PyStr.lstrip_with sp (pad ++ s) = PyStr.lstrip_with sp s.
Proof.
  induction pad as [|c pad IH]; cbn; [reflexivity|].
  intro H. apply andb_true_iff in H. destruct H as [Hc Hp].
  rewrite Hc. exact (IH Hp).
Qed.

Lemma rstrip_app_right (s pad : string) :
  all_chars sp pad = true ->
  PyStr.rstrip_with sp (s ++ pad) = PyStr.rstrip_with sp s.
Proof.
  intro H. induction s as [|c s IH]; cbn.
  - apply rstrip_all_spaces. exact H.
  - rewrite IH. reflexivity.
Qed.

Lemma strip_padding (left s right : string) :
  all_chars sp left = true -> all_chars sp right = true ->
  PyStr.strip_with sp (left ++ s ++ right) = PyStr.strip_with sp s.
Proof.
  intros Hl Hr. unfold PyStr.strip_with.
  rewrite lstrip_app_left by exact Hl.
  induction s as [|c s IH]; cbn.
  - rewrite lstrip_all_spaces by exact Hr. reflexivity.
  - destruct (sp c); [exact IH|].
    change (String c (s ++ right)) with (String c s ++ right)%string.
    apply rstrip_app_right. exact Hr.
Qed.

End StripFacts.

(** ** The fields of a blood-pressure text *)

Section SplitFields.
Variable sep : ascii.

Lemma join_split (s : string) :
  PyStr.join (String sep EmptyString) (PyStr.split sep s) = s.
Proof.
  induction s as [|c s IH]; [reflexivity|].
  cbn [PyStr.split].
  destruct (PyStr.split sep s) as [|h t] eqn:E;
    [exfalso; exact (split_nonempty sep s E)|].
  destruct (Ascii.eqb c sep) eqn:Ec.
  - apply Ascii.eqb_eq in Ec. subst c.
    change (PyStr.join (String sep EmptyString) (EmptyString :: h :: t))
      with (String sep (PyStr.join (String sep EmptyString) (h :: t))).
    rewrite IH. reflexivity.
  - destruct t as [|h' t].
    + cbn in IH |- *. rewrite IH. reflexivity.
    + change (PyStr.join (String sep EmptyString) (String c h :: h' :: t))
        with (String c (PyStr.join (String sep EmptyString) (h :: h' :: t))).
      rewrite IH. reflexivity.
Qed.

Lemma split_fields_no_sep (s : string) :
  Forall (fun field => count_char sep field = 0%nat) (PyStr.split sep s).
Proof.
  induction s as [|c s IH]; cbn [PyStr.split].
  - repeat constructor.
  - destruct (Ascii.eqb c sep) eqn:Ec.
    + constructor; [reflexivity | exact IH].
    + destruct (PyStr.split sep s) as [|h t]; [repeat constructor; cbn; rewrite Ec; reflexivity|].
      inversion IH as [|? ? Hh Ht]. subst.
      constructor; [|exact Ht]. cbn. rewrite Ec, Hh. reflexivity.
Qed.

Lemma split_two_fields (a b : string) :
  count_char sep a = 0%nat -> count_char sep b = 0%nat ->
  PyStr.split sep (a ++ String sep b) = [a; b].
Proof.
  intros Ha Hb.
  rewrite split_app_sep, (split_no_sep sep a Ha), (split_no_sep sep b Hb).
  reflexivity.
Qed.

End SplitFields.

Lemma int_space_not_slash (c : ascii) :
  PyStr.is_int_space c = true -> Ascii.eqb c "/" = false.
Proof.
  destruct c as [[] [] [] [] [] [] [] []]; cbn; congruence.
Qed.

Lemma int_spaces_no_slash (pad : string) :
  all_chars PyStr.is_int_space pad = true -> count_char "/" pad = 0%nat.
Proof.
  induction pad as [|c pad IH]; cbn; [reflexivity|].
  intro H. apply andb_true_iff in H. destruct H as [Hc Hp].
  rewrite (int_space_not_slash c Hc), (IH Hp). reflexivity.
Qed.

Lemma int_padding (left s right : string) :
  all_chars PyStr.is_int_space left = true ->
  all_chars PyStr.is_int_space right = true ->
  PyStr.int (left ++ s ++ right) = PyStr.int s.
Proof.
  intros Hl Hr. unfold PyStr.int.
  rewrite (strip_padding PyStr.is_int_space left s right Hl Hr).
  reflexivity.
Qed.

Lemma parse_bp_two_fields (a b : string) :
  count_char "/" a = 0%nat -> count_char "/" b = 0%nat ->
  parse_bp (a ++ "/" ++ b)
  = match PyStr.int a, PyStr.int b with
    | Some systolic, Some diastolic => Some (systolic, diastolic)
    | _, _ => None
    end.
Proof.
  intros Ha Hb. unfold parse_bp.
  change (a ++ "/" ++ b)%string with (a ++ String "/" b)%string.
  rewrite (split_two_fields "/" a b Ha Hb). cbn [map].
  destruct (PyStr.int a); destruct (PyStr.int b); reflexivity.
Qed.

(** X5: a blood-pressure text is read exactly when it is two fields
    around a single slash and [int] reads both; a text with no slash, or
    with more than one, is never read, whatever its fields hold. *)
Theorem pressure_read_iff_two_fields (bp : string) :
  (forall systolic diastolic,
     parse_bp bp = Some (systolic, diastolic)
     <-> exists a b,
           bp = (a ++ "/" ++ b)%string
           /\ count_char "/" a = 0%nat /\ count_char "/" b = 0%nat
           /\ PyStr.int a = Some systolic /\ PyStr.int b = Some diastolic)
  /\ (count_char "/" bp <> 1%nat ->
      parse_bp bp = None /\ pressure_part bp = []
      /\ pressure_log bp = [st_error bp_format_message]).
Proof.
  split.
  - intros systolic diastolic. split.
    + intro H. apply parse_bp_spec in H.
      destruct H as (a & b & Hs & Ha & Hb). exists a, b.
      pose proof (join_split "/" bp) as J. rewrite Hs in J.
      pose proof (split_fields_no_sep "/" bp) as F. rewrite Hs in F.
      inversion F as [|x l Fa F' Ex]. inversion F' as [|y l' Fb _ Ey].
      split; [symmetry; exact J|]. auto.
    + intros (a & b & -> & Ha & Hb & Ia & Ib).
      rewrite (parse_bp_two_fields a b Ha Hb), Ia, Ib. reflexivity.
  - intro Hc.
    assert (parse_bp bp = None) as E.
    { unfold parse_bp.
      pose proof (split_length "/" bp) as L.
      destruct (PyStr.split "/" bp) as [|a [|b [|c rest]]]; cbn [map].
      - reflexivity.
      - destruct (PyStr.int a); reflexivity.
      - cbn in L. exfalso. apply Hc. lia.
      - destruct (PyStr.int a); [|reflexivity].
        destruct (PyStr.int b); reflexivity. }
    unfold pressure_part, pressure_log. rewrite E. auto.
Qed.

Lemma pressure_read_iff_two_fields_witness :
  count_char "/" "120/80/1" <> 1%nat
  /\ parse_bp "120/80/1" = None /\ pressure_part "120/80/1" = []
  /\ pressure_log "120/80/1" = [st_error bp_format_message].
Proof.
  split; [discriminate|].
  apply (proj2 (pressure_read_iff_two_fields "120/80/1")). discriminate.
Defined.

(** X6: white space around either number of a blood-pressure text is
    ignored: the padded text is read as the text without the padding. *)
Theorem pressure_padding_ignored (p1 a p2 p3 b p4 : string) :
  all_chars PyStr.is_int_space p1 = true ->
  all_chars PyStr.is_int_space p2 = true ->
  all_chars PyStr.is_int_space p3 = true ->
  all_chars PyStr.is_int_space p4 = true ->
  count_char "/" a = 0%nat -> count_char "/" b = 0%nat ->
  parse_bp ((p1 ++ a ++ p2) ++ "/" ++ (p3 ++ b ++ p4)) = parse_bp (a ++ "/" ++ b).
Proof.
  intros H1 H2 H3 H4 Ha Hb.
  rewrite !parse_bp_two_fields; try assumption.
  - rewrite (int_padding p1 a p2 H1 H2), (int_padding p3 b p4 H3 H4).
    reflexivity.
  - rewrite !count_char_app, Ha.
    rewrite (int_spaces_no_slash p1 H1), (int_spaces_no_slash p2 H2).
    reflexivity.
  - rewrite !count_char_app, Hb.
    rewrite (int_spaces_no_slash p3 H3), (int_spaces_no_slash p4 H4).
    reflexivity.
Qed.

Lemma pressure_padding_ignored_witness :
  all_chars PyStr.is_int_space " " = true
  /\ all_chars PyStr.is_int_space "  " = true
  /\ all_chars PyStr.is_int_space "" = true
  /\ count_char "/" "150" = 0%nat /\ count_char "/" "95" = 0%nat
  /\ parse_bp ((" " ++ "150" ++ "  ") ++ "/" ++ (" " ++ "95" ++ ""))
     = parse_bp ("150" ++ "/" ++ "95").
Proof.
  repeat (split; [reflexivity|]).
  apply (pressure_padding_ignored " " "150" "  " " " "95" ""); reflexivity.
Defined.

(** ** What the scan of a context keeps *)

Lemma extracted_line_shape (context r : string) :
  In r (extracted_lines context) ->
  PyStr.strip r = r
  /\ exists rest, r = ("- " ++ rest)%string /\ rest <> "".
Proof.
  intro H.
  pose proof (extracted_lines_marked context) as Hm.
  rewrite Forall_forall in Hm. specialize (Hm r H).
  unfold extracted_lines in H. apply in_map_iff in H.
  destruct H as (line & <- & _).
  assert (PyStr.strip (PyStr.strip line) = PyStr.strip line) as Hs
    by apply strip_idempotent.
  split; [exact Hs|].
  destruct (startswith_marker _ Hm) as [rest E].
  exists rest. split; [exact E|].
  intros ->. rewrite E in Hs. discriminate Hs.
Qed.

(** X7: the lines the plan generator scans are the lines of the retrieved
    texts, text after text: the recommendations taken from the joined
    context are those of the first text, then those of the second, and so
    on, and the defaults are used only when no text has any. *)
Theorem recommendations_text_by_text (texts : list string) :
  extracted_lines (PyStr.join PyStr.nl texts)
  = List.concat (map extracted_lines texts)
  /\ recommendations_for (PyStr.join PyStr.nl texts)
     = match List.concat (map extracted_lines texts) with
       | [] => base_recommendations
       | found => found
       end.
Proof.
  rewrite recommendations_for_spec, extracted_lines_join.
  split; [reflexivity|].
  destruct (List.concat (map extracted_lines texts)); reflexivity.
Qed.

Lemma documents_four_each :
  Forall (fun text => List.length (extracted_lines text) = 4%nat) documents.
Proof. repeat constructor. Qed.

Lemma length_concat_const {A : Type} (n : nat) (ls : list (list A)) :
  Forall (fun l => List.length l = n) ls ->
  List.length (List.concat ls) = (n * List.length ls)%nat.
Proof.
  induction 1 as [|l ls Hl _ IH]; cbn [List.concat List.length]; [lia|].
  rewrite length_app, Hl, IH. lia.
Qed.

(** X8: whenever the store answers with one or more documents of the
    knowledge base, whichever and in whatever order, the plan carries
    their recommendations, four for each document, and none of the three
    defaults. *)
Theorem corpus_answer_replaces_defaults (texts : list string) :
  texts <> [] ->
  Forall (fun text => In text documents) texts ->
  let recommendations := recommendations_for (PyStr.join PyStr.nl texts) in
  recommendations = List.concat (map extracted_lines texts)
  /\ List.length recommendations = (4 * List.length texts)%nat
  /\ forall r, In r recommendations -> ~ In r base_recommendations.
Proof.
  intros Hne Hin recommendations. subst recommendations.
  rewrite recommendations_for_spec, extracted_lines_join.
  assert (List.length (List.concat (map extracted_lines texts))
          = (4 * List.length texts)%nat) as Hlen.
  { rewrite <- (length_map extracted_lines texts).
    apply length_concat_const. apply Forall_map.
    pose proof documents_four_each as Hd. rewrite Forall_forall in Hd, Hin.
    apply Forall_forall. intros text Ht. apply Hd, Hin, Ht. }
  destruct (List.concat (map extracted_lines texts)) as [|r0 l] eqn:E.
  - destruct texts; [congruence | cbn in Hlen; lia].
  - split; [reflexivity|]. split; [exact Hlen|].
    intros r Hr Hb.
    pose proof (extracted_lines_marked (PyStr.join PyStr.nl texts)) as Hm.
    rewrite extracted_lines_join, E, Forall_forall in Hm.
    pose proof base_recommendations_unmarked as Hu.
    rewrite Forall_forall in Hu.
    specialize (Hm r Hr). specialize (Hu r Hb). congruence.
Qed.

Lemma corpus_answer_replaces_defaults_witness :
  let texts := [nth 3 documents ""; nth 0 documents ""] in
  texts <> []
  /\ Forall (fun text => In text documents) texts
  /\ recommendations_for (PyStr.join PyStr.nl texts)
     = List.concat (map extracted_lines texts)
  /\ List.length (recommendations_for (PyStr.join PyStr.nl texts))
     = (4 * List.length texts)%nat
  /\ forall r, In r (recommendations_for (PyStr.join PyStr.nl texts)) ->
               ~ In r base_recommendations.
Proof.
  split; [discriminate|].
  split; [repeat constructor; cbn; tauto|].
  apply (corpus_answer_replaces_defaults
           [nth 3 documents ""; nth 0 documents ""]).
  - discriminate.
  - repeat constructor; cbn; tauto.
Defined.

(** X9: every recommendation of a plan is free of surrounding white
    space and is not empty; one taken from the context holds its marker
    followed by at least one more character, so a line that is a bare
    marker is never taken. *)
Theorem recommendations_trimmed (context r : string) :
  In r (recommendations_for context) ->
  PyStr.strip r = r /\ r <> ""
  /\ (In r (extracted_lines context) ->
      exists rest, r = ("- " ++ rest)%string /\ rest <> "").
Proof.
  rewrite recommendations_for_spec. intro H.
  assert (In r base_recommendations \/ In r (extracted_lines context)) as D.
  { destruct (extracted_lines context); [left|right]; exact H. }
  split; [|split].
  - destruct D as [D|D].
    + cbn in D. destruct D as [<-|[<-|[<-|[]]]]; reflexivity.
    + exact (proj1 (extracted_line_shape _ _ D)).
  - destruct D as [D|D].
    + cbn in D. destruct D as [<-|[<-|[<-|[]]]]; discriminate.
    + destruct (extracted_line_shape _ _ D) as (_ & rest & -> & _).
      discriminate.
  - intro D'. exact (proj2 (extracted_line_shape _ _ D')).
Qed.

Lemma recommendations_trimmed_witness :
  let context := ("  - first  " ++ PyStr.nl ++ " - " ++ PyStr.nl ++ "text")%string in
  In "- first" (recommendations_for context)
  /\ PyStr.strip "- first" = "- first" /\ "- first" <> ""
  /\ (In "- first" (extracted_lines context) ->
      exists rest, "- first" = ("- " ++ rest)%string /\ rest <> "").
Proof.
  split; [cbn; tauto|].
  apply (recommendations_trimmed
           ("  - first  " ++ PyStr.nl ++ " - " ++ PyStr.nl ++ "text")%string).
  cbn. tauto.
Defined.

(** ** One line for each recommendation *)

Section CountStrip.
Variable sp : ascii -> bool.
Variable c : ascii.

Lemma count_char_lstrip (s : string) :
  (count_char c (PyStr.lstrip_with sp s) <= count_char c s)%nat.
Proof.
  induction s as [|x s IH]; cbn; [lia|].
  destruct (sp x); cbn; lia.
Qed.

Lemma count_char_rstrip (s : string) :
  (count_char c (PyStr.rstrip_with sp s) <= count_char c s)%nat.
Proof.
  induction s as [|x s IH]; cbn; [lia|].
  destruct (PyStr.rstrip_with sp s) as [|y r].
  - destruct (sp x); cbn; lia.
  - cbn in IH |- *. lia.
Qed.

Lemma count_char_strip (s : string) :
  (count_char c (PyStr.strip_with sp s) <= count_char c s)%nat.
Proof.
  unfold PyStr.strip_with.
  pose proof (count_char_rstrip (PyStr.lstrip_with sp s)).
  pose proof (count_char_lstrip s). lia.
Qed.

End CountStrip.

Lemma split_join_lines (sep : ascii) (lines : list string) :
  lines <> [] ->
  Forall (fun line => count_char sep line = 0%nat) lines ->
  PyStr.split sep (PyStr.join (String sep EmptyString) lines) = lines.
Proof.
  intros Hne Hall. rewrite (split_join sep lines Hne). clear Hne.
  induction Hall as [|line rest Hl _ IH]; [reflexivity|].
  cbn [map List.concat]. rewrite (split_no_sep sep line Hl), IH. reflexivity.
Qed.

Lemma recommendations_no_newline (context : string) :
  Forall (fun r => count_char (ascii_of_nat 10) r = 0%nat)
    (recommendations_for context).
Proof.
  rewrite recommendations_for_spec.
  assert (Forall (fun r => count_char (ascii_of_nat 10) r = 0%nat)
            (extracted_lines context)) as He.
  { unfold extracted_lines. apply Forall_forall. intros r Hr.
    apply in_map_iff in Hr. destruct Hr as (line & <- & Hl).
    apply filter_In in Hl. destruct Hl as [Hl _].
    pose proof (split_fields_no_sep (ascii_of_nat 10) context) as Hs.
    rewrite Forall_forall in Hs. specialize (Hs line Hl).
    pose proof (count_char_strip PyStr.is_space (ascii_of_nat 10) line).
    unfold PyStr.strip. lia. }
  destruct (extracted_lines context); [repeat constructor | exact He].
Qed.

Lemma recommendations_nonempty (context : string) :
  recommendations_for context <> [].
Proof.
  rewrite recommendations_for_spec.
  destruct (extracted_lines context); discriminate.
Qed.

(** X10: a plan always has recommendations, and each takes exactly one
    line of it: the block of bullets between the head and the tail of the
    template, split at its newlines, gives back the recommendations one by
    one, each behind its bullet prefix. *)
Theorem one_line_per_recommendation (data : health_data) (context plan : string) :
  generate_diet_plan data context = Some plan ->
  exists first block,
    plan = (plan_head data first ++ block ++ plan_tail)%string
    /\ recommendations_for context <> []
    /\ PyStr.split (ascii_of_nat 10) block
       = map bullet (recommendations_for context)
    /\ List.length (PyStr.split (ascii_of_nat 10) block)
       = List.length (recommendations_for context).
Proof.
  intro H. unfold generate_diet_plan in H.
  destruct (conditions data) as [|first rest]; [discriminate|].
  injection H as <-.
  exists first, (PyStr.join PyStr.nl (map bullet (recommendations_for context))).
  split; [reflexivity|].
  split; [apply recommendations_nonempty|].
  assert (PyStr.split (ascii_of_nat 10)
            (PyStr.join PyStr.nl (map bullet (recommendations_for context)))
          = map bullet (recommendations_for context)) as E.
  { apply split_join_lines.
    - pose proof (recommendations_nonempty context).
      destruct (recommendations_for context); [congruence | discriminate].
    - apply Forall_map.
      pose proof (recommendations_no_newline context) as H.
      rewrite Forall_forall in H. apply Forall_forall. intros r Hr.
      unfold bullet. cbn. exact (H r Hr). }
  split; [exact E|]. rewrite E. apply length_map.
Qed.

Lemma one_line_per_recommendation_witness :
  let data := {| bmi := 24.2; conditions := ["Normal weight"]; age := 30 |} in
  let context := nth 1 documents "" in
  exists plan,
    generate_diet_plan data context = Some plan
    /\ exists first block,
         plan = (plan_head data first ++ block ++ plan_tail)%string
         /\ recommendations_for context <> []
         /\ PyStr.split (ascii_of_nat 10) block
            = map bullet (recommendations_for context)
         /\ List.length (PyStr.split (ascii_of_nat 10) block)
            = List.length (recommendations_for context).
Proof.
  eexists. split; [reflexivity|].
  apply (one_line_per_recommendation
           {| bmi := 24.2; conditions := ["Normal weight"]; age := 30 |}
           (nth 1 documents "")).
  reflexivity.
Defined.

(** ** The handler, outcome by outcome *)

Lemma on_generate_analysis_raises
    index age weight height bp sugar cholesterol e log :
  run (analyze_health age weight height bp sugar cholesterol) = (Raise e, log) ->
  run (on_generate (Some index) age weight height bp sugar cholesterol)
  = (Ok tt, log ++ [st_error
           "Failed to generate plan. Please check your inputs and try again."]).
Proof.
  intro H. unfold run in *.
  unfold on_generate, try_except, bind at 1. rewrite H. reflexivity.
Qed.

Lemma plan_of_nonempty_conditions data context :
  conditions data <> [] ->
  exists plan, generate_diet_plan data context = Some plan.
Proof.
  intro H. unfold generate_diet_plan.
  destruct (conditions data); [congruence|]. eauto.
Qed.

Lemma analysis_conditions_nonempty
    age weight height bp sugar cholesterol data log :
  run (analyze_health age weight height bp sugar cholesterol) = (Ok data, log) ->
  conditions data <> [].
Proof.
  intro H.
  destruct (analyze_health_returns _ _ _ _ _ _ _ _ H) as (raw & _ & -> & _).
  discriminate.
Qed.

Lemma outcome_events_of_analysis
    age weight height bp sugar cholesterol data log answer :
  run (analyze_health age weight height bp sugar cholesterol) = (Ok data, log) ->
  match answer with
  | Ok nodes =>
      exists plan,
        generate_diet_plan data (PyStr.join PyStr.nl nodes) = Some plan
        /\ outcome_events data answer
           = [st_success; st_markdown plan; st_download_button plan]
  | Raise _ => outcome_events data answer = [st_error
           "Failed to generate plan. Please check your inputs and try again."]
  end.
Proof.
  intro H. destruct answer as [nodes|e]; [|reflexivity].
  destruct (plan_of_nonempty_conditions data (PyStr.join PyStr.nl nodes)
              (analysis_conditions_nonempty _ _ _ _ _ _ _ _ H)) as [plan E].
  exists plan. split; [exact E|]. unfold outcome_events. rewrite E.
  reflexivity.
Qed.

Lemma prefix_app (a b : string) : String.prefix a (a ++ b) = true.
Proof.
  induction a as [|c a IH]; [destruct b; reflexivity|].
  cbn. destruct (Ascii.ascii_dec c c); [exact IH | congruence].
Qed.

(** X11: pressing the button never lets an exception out of the handler,
    whatever the six inputs, whether or not the index was loaded and
    whatever the store does: a zero height and a failing store both end
    in a message on the page. *)
Theorem handler_never_raises health_index age weight height bp sugar cholesterol :
  fst (run (on_generate health_index age weight height bp sugar cholesterol))
  = Ok tt.
Proof.
  destruct health_index as [index|]; [|reflexivity].
  destruct (run (analyze_health age weight height bp sugar cholesterol))
    as [[data|e] log] eqn:E.
  - rewrite (on_generate_run index _ _ _ _ _ _ _ _ E). reflexivity.
  - rewrite (on_generate_analysis_raises index _ _ _ _ _ _ _ _ E).
    reflexivity.
Qed.

(** X12: with a height of zero the division error is caught by the
    handler: the page shows the one message that asks to check the inputs;
    nothing is asked of the store, and a malformed blood pressure is not
    reported, since the division comes first. *)
Theorem zero_height_one_message index age weight height bp sugar cholesterol :
  (height == 0)%Q ->
  run (on_generate (Some index) age weight height bp sugar cholesterol)
  = (Ok tt,
     [st_error
        "Failed to generate plan. Please check your inputs and try again."]).
Proof.
  intro H.
  apply (on_generate_analysis_raises index age weight height bp sugar
           cholesterol ZeroDivisionError []).
  apply analyze_health_raise. apply calculate_bmi_zero_height. exact H.
Qed.

Lemma zero_height_one_message_witness :
  (0 == 0)%Q
  /\ run (on_generate (Some first_k_index) 30 70 0 "abc" 100 180)
     = (Ok tt,
        [st_error
           "Failed to generate plan. Please check your inputs and try again."]).
Proof.
  split; [reflexivity|].
  apply (zero_height_one_message first_k_index 30 70 0 "abc" 100 180).
  reflexivity.
Defined.

(** X13: when the store raises, the handler shows the message that asks
    to check the inputs, although the inputs were analysed without error;
    before it come only the blood-pressure message, if the text did not
    parse, and the request. *)
Theorem store_failure_shown_as_input_error
    index age weight height bp sugar cholesterol data log e :
  run (analyze_health age weight height bp sugar cholesterol) = (Ok data, log) ->
  index 2%nat (PyStr.join " " (conditions data)) = Raise e ->
  run (on_generate (Some index) age weight height bp sugar cholesterol)
  = (Ok tt,
     pressure_log bp
     ++ [retrieve_call 2 (PyStr.join " " (conditions data));
         st_error
           "Failed to generate plan. Please check your inputs and try again."]).
Proof.
  intros H He.
  rewrite (on_generate_run index _ _ _ _ _ _ _ _ H). cbv zeta.
  rewrite He.
  destruct (analyze_health_returns _ _ _ _ _ _ _ _ H) as (_ & _ & _ & ->).
  reflexivity.
Qed.

Lemma store_failure_shown_as_input_error_witness :
  let index := fun (_ : nat) (_ : string) =>
                 @Raise (list string) (RetrievalError "timeout") in
  let data := {| bmi := 24.2; conditions := ["Normal weight"]; age := 30 |} in
  run (analyze_health 30 70 170 "120/80" 100 180) = (Ok data, [])
  /\ index 2%nat (PyStr.join " " (conditions data))
     = Raise (RetrievalError "timeout")
  /\ run (on_generate (Some index) 30 70 170 "120/80" 100 180)
     = (Ok tt,
        pressure_log "120/80"
        ++ [retrieve_call 2 (PyStr.join " " (conditions data));
            st_error
              "Failed to generate plan. Please check your inputs and try again."]).
Proof.
  split; [reflexivity|]. split; [reflexivity|].
  apply (store_failure_shown_as_input_error
           (fun _ _ => Raise (RetrievalError "timeout"))
           30 70 170 "120/80" 100 180
           {| bmi := 24.2; conditions := ["Normal weight"]; age := 30 |}
           [] (RetrievalError "timeout")); reflexivity.
Defined.

(** X14: whenever the analysis returns and the store answers, with any
    texts or with none, the handler shows the plan: the success notice,
    then the plan text, then the download button carrying the same text.
    The text is what [generate_diet_plan] returns for the analysed data
    and the joined texts; it opens with the head of the template, in
    which the first condition of the analysis stands beside the BMI. *)
Theorem answered_request_shows_plan
    index age weight height bp sugar cholesterol data log nodes :
  run (analyze_health age weight height bp sugar cholesterol) = (Ok data, log) ->
  index 2%nat (PyStr.join " " (conditions data)) = Ok nodes ->
  exists label plan,
    hd_error (conditions data) = Some label
    /\ generate_diet_plan data (PyStr.join PyStr.nl nodes) = Some plan
    /\ String.prefix (plan_head data label) plan = true
    /\ run (on_generate (Some index) age weight height bp sugar cholesterol)
       = (Ok tt,
          log
          ++ [retrieve_call 2 (PyStr.join " " (conditions data));
              st_success; st_markdown plan; st_download_button plan]).
Proof.
  intros H Hi.
  rewrite (on_generate_run index _ _ _ _ _ _ _ _ H). cbv zeta.
  rewrite Hi. unfold outcome_events, generate_diet_plan.
  pose proof (analysis_conditions_nonempty _ _ _ _ _ _ _ _ H) as Hne.
  destruct (conditions data) as [|label rest]; [congruence|].
  eexists. eexists.
  split; [reflexivity|]. split; [reflexivity|].
  split; [apply prefix_app | reflexivity].
Qed.

Lemma answered_request_shows_plan_witness :
  let data := {| bmi := 24.2; conditions := ["Normal weight"]; age := 30 |} in
  run (analyze_health 30 70 170 "120/80" 100 180) = (Ok data, [])
  /\ first_k_index 2 (PyStr.join " " (conditions data))
     = Ok (firstn 2 documents)
  /\ exists label plan,
       hd_error (conditions data) = Some label
       /\ generate_diet_plan data (PyStr.join PyStr.nl (firstn 2 documents))
          = Some plan
       /\ String.prefix (plan_head data label) plan = true
       /\ run (on_generate (Some first_k_index) 30 70 170 "120/80" 100 180)
          = (Ok tt,
             []
             ++ [retrieve_call 2 (PyStr.join " " (conditions data));
                 st_success; st_markdown plan; st_download_button plan]).
Proof.
  split; [reflexivity|]. split; [reflexivity|].
  apply (answered_request_shows_plan first_k_index 30 70 170 "120/80" 100 180
           {| bmi := 24.2; conditions := ["Normal weight"]; age := 30 |}
           [] (firstn 2 documents)); reflexivity.
Defined.

Lemma analyze_health_raises_inv
    age weight height bp sugar cholesterol e log :
  run (analyze_health age weight height bp sugar cholesterol) = (Raise e, log) ->
  log = [] /\ (height == 0)%Q.
Proof.
  intro H. destruct (Qeq_dec height 0) as [Z|N].
  - rewrite (analyze_health_raise _ _ _ _ _ _ _
               (calculate_bmi_zero_height weight height Z)) in H.
    inversion H. auto.
  - rewrite (analyze_health_run _ _ _ _ _ _ _
               (calculate_bmi_nonzero_height weight height N)) in H.
    discriminate.
Qed.

(** X15: the message of the branch taken when no plan comes back is
    never shown, whatever the inputs, the index and the answers of the
    store: the analysis always returns at least the weight label, so the
    plan generator always returns a text. *)
Theorem try_again_never_shown
    health_index age weight height bp sugar cholesterol :
  ~ In (st_error "Failed to generate plan. Please try again.")
       (snd (run (on_generate health_index age weight height bp
                    sugar cholesterol))).
Proof.
  destruct health_index as [index|].
  - destruct (run (analyze_health age weight height bp sugar cholesterol))
      as [[data|e] log] eqn:E.
    + rewrite (on_generate_run index _ _ _ _ _ _ _ _ E). cbv zeta.
      cbn [snd]. rewrite in_app_iff. cbn [In].
      destruct (analyze_health_returns _ _ _ _ _ _ _ _ E) as (_ & _ & _ & ->).
      pose proof (outcome_events_of_analysis _ _ _ _ _ _ _ _
                    (index 2%nat (PyStr.join " " (conditions data))) E) as Ho.
      intros [Hin|[Hin|Hin]].
      * unfold pressure_log in Hin. destruct (parse_bp bp); cbn in Hin.
        -- exact Hin.
        -- destruct Hin as [Hin|[]]. discriminate Hin.
      * discriminate Hin.
      * destruct (index 2%nat (PyStr.join " " (conditions data))).
        -- destruct Ho as (plan & _ & Ho). rewrite Ho in Hin. cbn in Hin.
           destruct Hin as [Hin|[Hin|[Hin|[]]]]; discriminate Hin.
        -- rewrite Ho in Hin. cbn in Hin.
           destruct Hin as [Hin|[]]. discriminate Hin.
    + rewrite (on_generate_analysis_raises index _ _ _ _ _ _ _ _ E).
      destruct (analyze_health_raises_inv _ _ _ _ _ _ _ _ E) as [-> _].
      cbn. intros [Hin|[]]. discriminate Hin.
  - cbn. intros [Hin|[]]. discriminate Hin.
Qed.


(** X17: the context reaches the plan only through its qualifying
    lines: two contexts with the same qualifying lines, trimmed, give the
    same plan, whatever else they hold. *)
Theorem plan_ignores_other_text (data : health_data) (context1 context2 : string) :
  extracted_lines context1 = extracted_lines context2 ->
  generate_diet_plan data context1 = generate_diet_plan data context2.
Proof.
  intro H. unfold generate_diet_plan.
  rewrite !recommendations_for_spec, H. reflexivity.
Qed.

Lemma plan_ignores_other_text_witness :
  let data := {| bmi := 24.2; conditions := ["Normal weight"]; age := 30 |} in
  let context1 := "- High fiber intake" in
  let context2 := ("Condition: Diabetes" ++ PyStr.nl
                   ++ "     - High fiber intake  " ++ PyStr.nl
                   ++ "-not a bullet")%string in
  extracted_lines context1 = extracted_lines context2
  /\ generate_diet_plan data context1 = generate_diet_plan data context2.
Proof.
  split; [reflexivity|].
  apply (plan_ignores_other_text
           {| bmi := 24.2; conditions := ["Normal weight"]; age := 30 |}
           "- High fiber intake"
           ("Condition: Diabetes" ++ PyStr.nl
            ++ "     - High fiber intake  " ++ PyStr.nl
            ++ "-not a bullet")%string).
  reflexivity.
Defined.

(** X18: a run of [main] never raises, and it closes the page with the
    disclaimer in every case but one: when the button is pressed and the
    index is missing, the run ends at the message about the knowledge base
    and the disclaimer is not shown. *)
Theorem disclaimer_unless_index_missing
    health_index button age weight height bp sugar cholesterol :
  let page := main health_index button age weight height bp sugar cholesterol in
  fst page = Ok tt
  /\ (button = true /\ health_index = None ->
      snd page
      = [st_title; st_form; st_button;
         shown (st_error
                  "Health knowledge base not loaded. Please restart the app.")])
  /\ (button = false \/ health_index <> None ->
      exists before, snd page = before ++ [shown (st_markdown disclaimer)])
  /\ (In (shown (st_markdown disclaimer)) (snd page)
      <-> button = false \/ health_index <> None).
Proof.
  unfold main.
  destruct button.
  - destruct health_index as [index|].
    + assert (exists log,
                run (on_generate (Some index) age weight height bp sugar
                       cholesterol) = (Ok tt, log)) as [log E].
      { destruct (run (analyze_health age weight height bp sugar cholesterol))
          as [[data|e] log] eqn:E.
        - rewrite (on_generate_run index _ _ _ _ _ _ _ _ E). eauto.
        - rewrite (on_generate_analysis_raises index _ _ _ _ _ _ _ _ E).
          eauto. }
      rewrite E. cbn [fst snd].
      split; [reflexivity|].
      split; [intros [_ H]; discriminate H|].
      split.
      * intros _. exists ([st_title; st_form; st_button] ++ map shown log).
        rewrite <- app_assoc. reflexivity.
      * split; [intros _; right; discriminate|].
        intros _. rewrite !in_app_iff. right. right. left. reflexivity.
    + cbn [fst snd].
      split; [reflexivity|].
      split; [intros _; reflexivity|].
      split; [intros [H|H]; [discriminate H | congruence]|].
      split; [|intros [H|H]; [discriminate H | congruence]].
      cbn. intros [H|[H|[H|[H|[]]]]]; discriminate H.
  - cbn [fst snd].
    split; [reflexivity|].
    split; [intros [H _]; discriminate H|].
    split.
    + intros _. exists [st_title; st_form; st_button]. reflexivity.
    + split; [intros _; left; reflexivity|].
      intros _. cbn. right. right. right. left. reflexivity.
Qed.
